(** * RebelCODE: the workspace coordinator (src/ui/WorkspaceManager.cpp)

    A shallow embedding of [rebel_cad::ui::WorkspaceManager] and the
    properties its specification states about it.

    The coordinator owns two pieces of state (the current drag and the
    drag-and-drop observer) and talks to five things it does not own: the
    window, docking and toolbar managers, the filesystem and the JSON
    library.  Those are modelled at their interface: every call into them
    may return a value, throw an exception derived from [std::exception],
    or throw something else, and may change the outside world.  Every such
    call is recorded in a trace, so that "no docking call was made" is a
    statement about the trace. *)

From Stdlib Require Import ZArith List String Ascii Bool Lia.
From Stdlib Require Import Floats.SpecFloat.
Import ListNotations.

Local Open Scope string_scope.
Local Open Scope list_scope.

(** ** Values of the C++ program *)

(** A C++ [float]: an IEEE-754 value.  The only float operations of the
    coordinator are the comparisons [<] and [<=], which do not depend on the
    precision, so the format-independent [spec_float] is used (a binary32
    value is one that satisfies [valid_binary 24 128]). *)
Definition float : Type := spec_float.

(** The literal [0] of [x < 0], converted to float. *)
Definition float_zero : float := S754_zero false.

(** [a < b] and [a <= b] on floats: false as soon as an operand is NaN. *)
Definition float_lt (a b : float) : bool := SFltb a b.
Definition float_le (a b : float) : bool := SFleb a b.

(** Modelled from the spec: core/Error.h is not among the sources.  The
    coordinator builds [Error::Success()] and [Error("message")], asks
    [IsSuccess()], and its tests read [GetMessage()]; an [Error] is a result
    value that is either success or a failure carrying its message. *)
Inductive Error : Type :=
| Error_Success
| Error_ (message : string).

Definition IsSuccess (e : Error) : bool :=
  match e with
  | Error_Success => true
  | Error_ _ => false
  end.

Definition GetMessage (e : Error) : string :=
  match e with
  | Error_Success => EmptyString
  | Error_ m => m
  end.

(** [struct DraggableElement] of WorkspaceManager.h. *)
Module DraggableElement.
Record t : Type := Build {
  id : Z;
  type : string;
  x : float;
  y : float;
  width : float;
  height : float;
  isDocked : bool;
  dockLocation : string
}.
End DraggableElement.

#[local] Unset Elimination Schemes.

(** A [nlohmann::json] value.  An object is a [std::map]: its keys are
    unique and kept in increasing order; see [object_insert]. *)
Inductive json : Type :=
| json_null
| json_boolean (b : bool)
| json_integer (n : Z)
| json_float (f : float)
| json_string (s : string)
| json_array (items : list json)
| json_object (members : list (string * json)).

#[local] Set Elimination Schemes.

(** The exceptions of the JSON library that the coordinator can provoke.
    All of them derive from [std::exception]. *)
Inductive json_exception : Type :=
| out_of_range_403 (key : string)      (* at(key): key not found *)
| type_error_302 (j : json)            (* conversion to std::string of a non-string *)
| type_error_304 (j : json)            (* at(key) on a value that is no object *)
| type_error_305 (j : json).           (* operator[](key) on a value that is no object *)

(** How a call ends: it returns, it throws an exception derived from
    [std::exception] (whose [what()] text is kept), or it throws anything
    else, which [catch (const std::exception&)] does not catch. *)
Inductive outcome (A : Type) : Type :=
| Returns (a : A)
| ThrowsStd (what : string)
| ThrowsOther.

Arguments Returns {A} a.
Arguments ThrowsStd {A} what.
Arguments ThrowsOther {A}.

(** Modelled from the spec: ui/WindowManager.h is not among the sources.
    The spec gives the window manager [GetMainWindow() -> {width, height} |
    absent]; the two getters read the dimensions of the window handed out. *)
Record MainWindow : Type := {
  GetWidth : float;
  GetHeight : float
}.

(** An entry met by [std::filesystem::directory_iterator], reduced to the two
    components of its path that [GetAvailableWorkspaces] reads. *)
Record directory_entry : Type := {
  path_stem : string;
  path_extension : string
}.

Inductive Manager : Type := Windows | Docking | Toolbars.

(** One record per call that leaves the coordinator. *)
Inductive Event : Type :=
| EvGetMainWindow
| EvUpdateWindowPosition (id : Z) (x y : float)
| EvUpdateToolbarPosition (id : Z) (x y : float)
| EvDockElement (id : Z) (location : string)
| EvSerializeState (m : Manager)
| EvDeserializeState (m : Manager) (j : json)
| EvCallback (dragged target : DraggableElement.t)
| EvLogInfo (type : string) (id : Z)
| EvOfstreamOpen (path : string)
| EvOfstreamWrite (path text : string)
| EvIfstreamOpen (path : string)
| EvExists (path : string)
| EvRemove (path : string)
| EvDirectoryIterator (path : string)
| EvClockNow.

(** ** The outside world

    [W] is the state of everything outside the coordinator.  An external
    operation transforms it and ends in an [outcome]. *)
Definition extern (W A : Type) : Type := W -> outcome A * W.

(** [DragDropCallback]: a [std::function] taking the dragged element and the
    target.  It runs against the outside world; it does not re-enter the
    coordinator (the spec's non-reentrancy assumption). *)
Definition DragDropCallback (W : Type) : Type :=
  DraggableElement.t -> DraggableElement.t -> extern W unit.

Record Env (W : Type) : Type := {
  (* WindowManager *)
  window_GetMainWindow : extern W (option MainWindow);
  window_UpdateWindowPosition : Z -> float -> float -> extern W unit;
  window_SerializeState : extern W json;
  window_DeserializeState : json -> extern W Error;
  (* DockingManager *)
  docking_DockElement : Z -> string -> extern W Error;
  docking_SerializeState : extern W json;
  docking_DeserializeState : json -> extern W Error;
  (* ToolbarManager *)
  toolbar_UpdateToolbarPosition : Z -> float -> float -> extern W unit;
  toolbar_SerializeState : extern W json;
  toolbar_DeserializeState : json -> extern W Error;
  (* <fstream>: [ofstream(path).is_open()], [file << text],
     [ifstream(path)] giving the text read when it opens *)
  ofstream_open : string -> extern W bool;
  ofstream_write : string -> string -> extern W unit;
  ifstream_open : string -> extern W (option string);
  (* <filesystem> *)
  filesystem_exists : string -> extern W bool;
  filesystem_remove : string -> extern W bool;
  directory_iterator : string -> extern W (list directory_entry);
  (* <chrono>: [system_clock::now().time_since_epoch().count()] *)
  clock_now : extern W Z;
  (* core/Log.h: [LOG_INFO("Started dragging {} element (id: {})", type, id)] *)
  LOG_INFO : string -> Z -> extern W unit;
  (* nlohmann::json: [file >> state], [state.dump(indent)], [e.what()] *)
  json_parse : string -> outcome json;
  json_dump : nat -> json -> outcome string;
  json_what : json_exception -> string
}.

Arguments window_GetMainWindow {W}.
Arguments window_UpdateWindowPosition {W}.
Arguments window_SerializeState {W}.
Arguments window_DeserializeState {W}.
Arguments docking_DockElement {W}.
Arguments docking_SerializeState {W}.
Arguments docking_DeserializeState {W}.
Arguments toolbar_UpdateToolbarPosition {W}.
Arguments toolbar_SerializeState {W}.
Arguments toolbar_DeserializeState {W}.
Arguments ofstream_open {W}.
Arguments ofstream_write {W}.
Arguments ifstream_open {W}.
Arguments filesystem_exists {W}.
Arguments filesystem_remove {W}.
Arguments directory_iterator {W}.
Arguments clock_now {W}.
Arguments LOG_INFO {W}.
Arguments json_parse {W}.
Arguments json_dump {W}.
Arguments json_what {W}.

(** ** The coordinator's state

    The two data members the coordinator owns, the outside world it
    borrows, and the trace of the calls made so far. *)
Record State (W : Type) : Type := mkState {
  current_drag_ : option DraggableElement.t;
  drag_drop_callback_ : option (DragDropCallback W);
  world : W;
  trace : list Event
}.

Arguments mkState {W}.
Arguments current_drag_ {W}.
Arguments drag_drop_callback_ {W}.
Arguments world {W}.
Arguments trace {W}.

(** ** Computations of the coordinator: state and exceptions *)

Definition M (W A : Type) : Type := State W -> outcome A * State W.

Definition ret {W A} (a : A) : M W A := fun s => (Returns a, s).

Definition bind {W A B} (m : M W A) (k : A -> M W B) : M W B :=
  fun s =>
    match m s with
    | (Returns a, s') => k a s'
    | (ThrowsStd what, s') => (ThrowsStd what, s')
    | (ThrowsOther, s') => (ThrowsOther, s')
    end.

Declare Scope coordinator_scope.
Delimit Scope coordinator_scope with M.

Notation "x <- m ;; k" := (bind m (fun x => k))
  (at level 100, m at next level, right associativity) : coordinator_scope.
Notation "m ;;; k" := (bind m (fun _ => k))
  (at level 100, right associativity) : coordinator_scope.

(** [throw e] for an exception derived from [std::exception]. *)
Definition throw {W A} (what : string) : M W A := fun s => (ThrowsStd what, s).

(** [lift o]: a library call that touches no state. *)
Definition lift {W A} (o : outcome A) : M W A := fun s => (o, s).

(** [try { body } catch (const std::exception& e) { handler(e.what()) }] *)
Definition try_catch {W A} (body : M W A) (handler : string -> M W A) : M W A :=
  fun s =>
    match body s with
    | (Returns a, s') => (Returns a, s')
    | (ThrowsStd what, s') => handler what s'
    | (ThrowsOther, s') => (ThrowsOther, s')
    end.

(** A call that leaves the coordinator: recorded, then run on the world. *)
Definition call {W A} (ev : Event) (op : extern W A) : M W A :=
  fun s =>
    let (r, w') := op (world s) in
    (r, mkState (current_drag_ s) (drag_drop_callback_ s) w' (trace s ++ [ev])).

(** Reading and writing the data member [current_drag_]. *)
Definition get_current_drag {W} : M W (option DraggableElement.t) :=
  fun s => (Returns (current_drag_ s), s).

Definition set_current_drag {W} (d : option DraggableElement.t) : M W unit :=
  fun s => (Returns tt, mkState d (drag_drop_callback_ s) (world s) (trace s)).

Definition get_callback {W} : M W (option (DragDropCallback W)) :=
  fun s => (Returns (drag_drop_callback_ s), s).

(** ** The JSON operations the coordinator uses *)

(** [std::map::find] on the members of an object. *)
Fixpoint object_find (key : string) (members : list (string * json)) : option json :=
  match members with
  | [] => None
  | (k, v) :: rest => if String.eqb key k then Some v else object_find key rest
  end.

(** [object[key] = v] on a [std::map]: the value of an existing key is
    replaced, a new key goes to its place in the order of the keys. *)
Fixpoint object_insert (key : string) (v : json) (members : list (string * json))
  : list (string * json) :=
  match members with
  | [] => [(key, v)]
  | (k, u) :: rest =>
      match String.compare key k with
      | Lt => (key, v) :: members
      | Eq => (key, v) :: rest
      | Gt => (k, u) :: object_insert key v rest
      end
  end.

(** The object built from a braced list of key/value pairs, as in
    [state["drag_state"] = { {"element_id", ...}, ... }] (the keys of that
    list are distinct). *)
Definition json_object_of (pairs : list (string * json)) : json :=
  json_object (fold_left (fun members kv => object_insert (fst kv) (snd kv) members) pairs []).

(** [j.contains(key)], as the tests use it. *)
Definition json_contains (j : json) (key : string) : bool :=
  match j with
  | json_object members =>
      match object_find key members with
      | Some _ => true
      | None => false
      end
  | _ => false
  end.

(** ** Names and paths *)

Definition char_in_range (lo hi c : ascii) : bool :=
  (nat_of_ascii lo <=? nat_of_ascii c)%nat && (nat_of_ascii c <=? nat_of_ascii hi)%nat.

(** The bracket expression [[a-zA-Z0-9_-]] of [valid_name_regex]. *)
Definition valid_name_char (c : ascii) : bool :=
  char_in_range "a" "z" c || char_in_range "A" "Z" c || char_in_range "0" "9" c
  || Ascii.eqb c "_" || Ascii.eqb c "-".

Fixpoint all_chars (p : ascii -> bool) (s : string) : bool :=
  match s with
  | EmptyString => true
  | String c rest => p c && all_chars p rest
  end.

(** [std::regex_match(name, std::regex("^[a-zA-Z0-9_-]+$"))]: the whole of
    [name] is one or more characters of the bracket expression. *)
Definition regex_match_valid_name (name : string) : bool :=
  match name with
  | EmptyString => false
  | String c rest => valid_name_char c && all_chars valid_name_char rest
  end.

(** [name.empty()] *)
Definition empty (name : string) : bool :=
  match name with
  | EmptyString => true
  | String _ _ => false
  end.

(** [std::filesystem::path] in the generic (POSIX) format: [p / q] is [q]
    when [q] is absolute, and [q] appended to [p] after a separator
    otherwise ([p] is "workspaces" here: not empty, no trailing separator). *)
Definition path_append (p q : string) : string :=
  match q with
  | String "/" _ => q
  | _ => p ++ "/" ++ q
  end.

Definition GetWorkspacePath (name : string) : string :=
  path_append "workspaces" (name ++ ".json").

Definition ValidateWorkspaceName (name : string) : Error :=
  if empty name then
    Error_ "Workspace name cannot be empty"
  else if negb (regex_match_valid_name name) then
    Error_ "Workspace name can only contain letters, numbers, underscores, and hyphens"
  else
    Error_Success.

(** ** The operations of [WorkspaceManager] *)

Section WorkspaceManager.

Context {W : Type} (env : Env W).

Local Open Scope coordinator_scope.

(** [throw] of a JSON library exception. *)
Definition json_throw {A} (e : json_exception) : M W A :=
  throw (json_what env e).

(** [j.at(key)] on a const reference. *)
Definition json_at (j : json) (key : string) : M W json :=
  match j with
  | json_object members =>
      match object_find key members with
      | Some v => ret v
      | None => json_throw (out_of_range_403 key)
      end
  | _ => json_throw (type_error_304 j)
  end.

(** The conversion [std::string version = j]. *)
Definition json_get_string (j : json) : M W string :=
  match j with
  | json_string s => ret s
  | _ => json_throw (type_error_302 j)
  end.

(** [j[key] = v]: a null value becomes an object first. *)
Definition json_assign (j : json) (key : string) (v : json) : M W json :=
  match j with
  | json_null => ret (json_object (object_insert key v []))
  | json_object members => ret (json_object (object_insert key v members))
  | _ => json_throw (type_error_305 j)
  end.

Definition BeginDrag (element : DraggableElement.t) : M W Error :=
  current <- get_current_drag ;;
  match current with
  | Some _ => ret (Error_ "A drag operation is already in progress")
  | None =>
      set_current_drag (Some element) ;;;
      call (EvLogInfo (DraggableElement.type element) (DraggableElement.id element))
           (LOG_INFO env (DraggableElement.type element) (DraggableElement.id element)) ;;;
      ret Error_Success
  end.

Definition UpdateDragPosition (x y : float) : M W Error :=
  current <- get_current_drag ;;
  match current with
  | None => ret (Error_ "No drag operation in progress")
  | Some d =>
      set_current_drag
        (Some (DraggableElement.Build
                 (DraggableElement.id d) (DraggableElement.type d)
                 x y
                 (DraggableElement.width d) (DraggableElement.height d)
                 (DraggableElement.isDocked d) (DraggableElement.dockLocation d))) ;;;
      ret Error_Success
  end.

Definition IsValidDropTarget (x y : float) : M W bool :=
  if float_lt x float_zero || float_lt y float_zero then ret false
  else
    main_window <- call EvGetMainWindow (window_GetMainWindow env) ;;
    match main_window with
    | None => ret false
    | Some mw => ret (float_le x (GetWidth mw) && float_le y (GetHeight mw))
    end.

(** [delete current_drag_; current_drag_ = nullptr;] *)
Definition delete_current_drag : M W unit := set_current_drag None.

(** The statements of [EndDrag] after the docking step: callback,
    position update, clean-up. *)
Definition EndDrag_finish (dragged target : DraggableElement.t) : M W Error :=
  callback <- get_callback ;;
  match callback with
  | Some f => call (EvCallback dragged target) (f dragged target)
  | None => ret tt
  end ;;;
  (if String.eqb (DraggableElement.type dragged) "window" then
     call (EvUpdateWindowPosition (DraggableElement.id dragged)
             (DraggableElement.x target) (DraggableElement.y target))
          (window_UpdateWindowPosition env (DraggableElement.id dragged)
             (DraggableElement.x target) (DraggableElement.y target))
   else if String.eqb (DraggableElement.type dragged) "toolbar" then
     call (EvUpdateToolbarPosition (DraggableElement.id dragged)
             (DraggableElement.x target) (DraggableElement.y target))
          (toolbar_UpdateToolbarPosition env (DraggableElement.id dragged)
             (DraggableElement.x target) (DraggableElement.y target))
   else ret tt) ;;;
  delete_current_drag ;;;
  ret Error_Success.

(** The body of the [try] block of [EndDrag]. *)
Definition EndDrag_body (dragged target : DraggableElement.t) : M W Error :=
  valid <- IsValidDropTarget (DraggableElement.x target) (DraggableElement.y target) ;;
  if negb valid then
    delete_current_drag ;;;
    ret (Error_ "Invalid drop target location")
  else if DraggableElement.isDocked target then
    result <- call (EvDockElement (DraggableElement.id dragged)
                      (DraggableElement.dockLocation target))
                   (docking_DockElement env (DraggableElement.id dragged)
                      (DraggableElement.dockLocation target)) ;;
    if negb (IsSuccess result) then
      delete_current_drag ;;;
      ret result
    else EndDrag_finish dragged target
  else EndDrag_finish dragged target.

Definition EndDrag (target : DraggableElement.t) : M W Error :=
  current <- get_current_drag ;;
  match current with
  | None => ret (Error_ "No drag operation in progress")
  | Some dragged =>
      try_catch (EndDrag_body dragged target)
        (fun what =>
           delete_current_drag ;;;
           ret (Error_ ("Failed to complete drag operation: " ++ what)))
  end.

(** A [std::function] may be empty, hence the option. *)
Definition SetDragDropCallback (callback : option (DragDropCallback W)) : M W unit :=
  fun s => (Returns tt, mkState (current_drag_ s) callback (world s) (trace s)).

Definition GetDraggedElement : M W (option DraggableElement.t) :=
  get_current_drag.

Definition SerializeCurrentState : M W json :=
  windows <- call (EvSerializeState Windows) (window_SerializeState env) ;;
  state <- json_assign json_null "windows" windows ;;
  docking <- call (EvSerializeState Docking) (docking_SerializeState env) ;;
  state <- json_assign state "docking" docking ;;
  toolbars <- call (EvSerializeState Toolbars) (toolbar_SerializeState env) ;;
  state <- json_assign state "toolbars" toolbars ;;
  current <- get_current_drag ;;
  state <- match current with
           | Some d =>
               json_assign state "drag_state"
                 (json_object_of
                    [("element_id", json_integer (DraggableElement.id d));
                     ("element_type", json_string (DraggableElement.type d));
                     ("position_x", json_float (DraggableElement.x d));
                     ("position_y", json_float (DraggableElement.y d));
                     ("is_docked", json_boolean (DraggableElement.isDocked d));
                     ("dock_location", json_string (DraggableElement.dockLocation d))])
           | None => ret state
           end ;;
  state <- json_assign state "version" (json_string "1.0") ;;
  now <- call EvClockNow (clock_now env) ;;
  state <- json_assign state "timestamp" (json_integer now) ;;
  ret state.

Definition DeserializeAndApplyState (state : json) : M W Error :=
  try_catch
    (v <- json_at state "version" ;;
     version <- json_get_string v ;;
     if negb (String.eqb version "1.0") then
       ret (Error_ "Unsupported workspace format version")
     else
       windows <- json_at state "windows" ;;
       window_result <- call (EvDeserializeState Windows windows)
                             (window_DeserializeState env windows) ;;
       if negb (IsSuccess window_result) then ret window_result
       else
         docking <- json_at state "docking" ;;
         docking_result <- call (EvDeserializeState Docking docking)
                                (docking_DeserializeState env docking) ;;
         if negb (IsSuccess docking_result) then ret docking_result
         else
           toolbars <- json_at state "toolbars" ;;
           toolbar_result <- call (EvDeserializeState Toolbars toolbars)
                                  (toolbar_DeserializeState env toolbars) ;;
           if negb (IsSuccess toolbar_result) then ret toolbar_result
           else ret Error_Success)
    (fun what => ret (Error_ ("Failed to apply workspace state: " ++ what))).

Definition SaveWorkspace (name : string) : M W Error :=
  let validation_result := ValidateWorkspaceName name in
  if negb (IsSuccess validation_result) then ret validation_result
  else
    try_catch
      (state <- SerializeCurrentState ;;
       is_open <- call (EvOfstreamOpen (GetWorkspacePath name))
                       (ofstream_open env (GetWorkspacePath name)) ;;
       if negb is_open then ret (Error_ "Failed to open workspace file for writing")
       else
         text <- lift (json_dump env 4 state) ;;
         call (EvOfstreamWrite (GetWorkspacePath name) text)
              (ofstream_write env (GetWorkspacePath name) text) ;;;
         ret Error_Success)
      (fun what => ret (Error_ ("Failed to save workspace: " ++ what))).

Definition LoadWorkspace (name : string) : M W Error :=
  try_catch
    (file <- call (EvIfstreamOpen (GetWorkspacePath name))
                  (ifstream_open env (GetWorkspacePath name)) ;;
     match file with
     | None => ret (Error_ "Workspace file not found")
     | Some text =>
         state <- lift (json_parse env text) ;;
         DeserializeAndApplyState state
     end)
    (fun what => ret (Error_ ("Failed to load workspace: " ++ what))).

Definition GetAvailableWorkspaces : M W (list string) :=
  entries <- call (EvDirectoryIterator "workspaces")
                  (directory_iterator env "workspaces") ;;
  ret (fold_left
         (fun workspaces entry =>
            if String.eqb (path_extension entry) ".json"
            then workspaces ++ [path_stem entry]
            else workspaces)
         entries []).

Definition DeleteWorkspace (name : string) : M W Error :=
  try_catch
    (found <- call (EvExists (GetWorkspacePath name))
                   (filesystem_exists env (GetWorkspacePath name)) ;;
     if negb found then ret (Error_ "Workspace does not exist")
     else
       call (EvRemove (GetWorkspacePath name))
            (filesystem_remove env (GetWorkspacePath name)) ;;;
       ret Error_Success)
    (fun what => ret (Error_ ("Failed to delete workspace: " ++ what))).

End WorkspaceManager.

(** ** A concrete environment

    An in-memory world used to run the operations on explicit inputs: a
    workspace directory holding named texts, a main window, and managers
    whose answers are read from the world. *)

Module Fixture.

Record World : Type := mkWorld {
  directory_present : bool;
  files : list (string * string);          (* workspace name, text *)
  main_window : option MainWindow;
  dock_result : Error;
  deserialize_result : Manager -> Error
}.

Fixpoint read_file (path : string) (fs : list (string * string)) : option string :=
  match fs with
  | [] => None
  | (name, text) :: rest =>
      if String.eqb (GetWorkspacePath name) path then Some text else read_file path rest
  end.

Fixpoint remove_file (path : string) (fs : list (string * string)) : list (string * string) :=
  match fs with
  | [] => []
  | (name, text) :: rest =>
      if String.eqb (GetWorkspacePath name) path then remove_file path rest
      else (name, text) :: remove_file path rest
  end.

Definition set_files (w : World) (fs : list (string * string)) : World :=
  mkWorld (directory_present w) fs (main_window w) (dock_result w) (deserialize_result w).

(** The texts the fixture's parser knows. *)
Definition parse (text : string) : outcome json :=
  if String.eqb text "{}" then Returns (json_object [])
  else if String.eqb text "[]" then Returns (json_array [])
  else if String.eqb text "version-2.0" then
    Returns (json_object [("docking", json_object []); ("timestamp", json_integer 123456789);
                          ("toolbars", json_object []); ("version", json_string "2.0");
                          ("windows", json_object [])])
  else if String.eqb text "version-1.0" then
    Returns (json_object [("docking", json_object []);
                          ("drag_state", json_object [("element_id", json_integer 1)]);
                          ("timestamp", json_integer 123456789);
                          ("toolbars", json_object []); ("version", json_string "1.0");
                          ("windows", json_object [])])
  else if String.eqb text "version-number" then
    Returns (json_object [("version", json_integer 1)])
  else ThrowsStd "[json.exception.parse_error.101] parse error".

Definition what (e : json_exception) : string :=
  match e with
  | out_of_range_403 key => "[json.exception.out_of_range.403] key '" ++ key ++ "' not found"
  | type_error_302 _ => "[json.exception.type_error.302] type must be string"
  | type_error_304 _ => "[json.exception.type_error.304] cannot use at()"
  | type_error_305 _ => "[json.exception.type_error.305] cannot use operator[]"
  end.

Definition env : Env World := {|
  window_GetMainWindow := fun w => (Returns (main_window w), w);
  window_UpdateWindowPosition := fun _ _ _ w => (Returns tt, w);
  window_SerializeState := fun w => (Returns (json_object []), w);
  window_DeserializeState := fun _ w => (Returns (deserialize_result w Windows), w);
  docking_DockElement := fun _ _ w => (Returns (dock_result w), w);
  docking_SerializeState := fun w => (Returns (json_object []), w);
  docking_DeserializeState := fun _ w => (Returns (deserialize_result w Docking), w);
  toolbar_UpdateToolbarPosition := fun _ _ _ w => (Returns tt, w);
  toolbar_SerializeState := fun w => (Returns (json_object []), w);
  toolbar_DeserializeState := fun _ w => (Returns (deserialize_result w Toolbars), w);
  ofstream_open := fun _ w => (Returns (directory_present w), w);
  ofstream_write := fun _ _ w => (Returns tt, w);
  ifstream_open := fun path w => (Returns (read_file path (files w)), w);
  filesystem_exists := fun path w =>
    (Returns (match read_file path (files w) with Some _ => true | None => false end), w);
  filesystem_remove := fun path w => (Returns true, set_files w (remove_file path (files w)));
  directory_iterator := fun _ w =>
    if directory_present w then
      (Returns (map (fun f => {| path_stem := fst f; path_extension := ".json" |}) (files w)), w)
    else
      (ThrowsStd "filesystem error: directory iterator cannot open directory: No such file or directory [workspaces]", w);
  clock_now := fun w => (Returns 1700000000%Z, w);
  LOG_INFO := fun _ _ w => (Returns tt, w);
  json_parse := parse;
  json_dump := fun _ _ => Returns "{...}";
  json_what := what
|}.

(** [800.0f], [600.0f], ... as binary32 values. *)
Definition float_of_Z (n : Z) : float := binary_normalize 24 128 n 0 false.

Definition window_800x600 : MainWindow :=
  {| GetWidth := float_of_Z 800; GetHeight := float_of_Z 600 |}.

Definition all_succeed : Manager -> Error := fun _ => Error_Success.

(** The directory as the constructor leaves it, with some saved texts. *)
Definition world0 : World :=
  mkWorld true
    [("noversion", "{}"); ("incompatible", "version-2.0"); ("good", "version-1.0");
     ("a b", "version-1.0"); ("numeric", "version-number")]
    (Some window_800x600) Error_Success all_succeed.

(** Managers of which one refuses what it is asked to restore. *)
Definition refused_by (m : Manager) : Manager -> Error :=
  fun asked =>
    match m, asked with
    | Windows, Windows => Error_ "Invalid window state"
    | Docking, Docking => Error_ "Invalid docking state"
    | Toolbars, Toolbars => Error_ "Invalid toolbar state"
    | _, _ => Error_Success
    end.

Definition world_refusing (m : Manager) : World :=
  mkWorld true (files world0) (Some window_800x600) Error_Success (refused_by m).

(** The fixture of the tests: the directory removed after construction. *)
Definition world_no_directory : World :=
  mkWorld false [] (Some window_800x600) Error_Success all_succeed.

Definition world_no_main_window : World :=
  mkWorld true [] None Error_Success all_succeed.

Definition world_docking_fails : World :=
  mkWorld true [] (Some window_800x600) (Error_ "Unknown dock location") all_succeed.

(** The elements of the tests. *)
Definition element : DraggableElement.t :=
  DraggableElement.Build 1 "window" (float_of_Z 100) (float_of_Z 100)
    (float_of_Z 200) (float_of_Z 150) false EmptyString.

Definition target : DraggableElement.t :=
  DraggableElement.Build 2 "window" (float_of_Z 200) (float_of_Z 150)
    (float_of_Z 200) (float_of_Z 150) false EmptyString.

Definition target_docked : DraggableElement.t :=
  DraggableElement.Build 2 "window" (float_of_Z 200) (float_of_Z 150)
    (float_of_Z 200) (float_of_Z 150) true "right".

Definition target_outside : DraggableElement.t :=
  DraggableElement.Build 2 "window" (float_of_Z 900) (float_of_Z 150)
    (float_of_Z 200) (float_of_Z 150) false EmptyString.

Definition idle (w : World) : State World := mkState None None w [].

Definition dragging (w : World) : State World := mkState (Some element) None w [].

(** Observers: one that returns, one that throws [std::runtime_error("boom")],
    one that throws a value that is no [std::exception]. *)
Definition observer_ok : DragDropCallback World := fun _ _ w => (Returns tt, w).
Definition observer_throws : DragDropCallback World := fun _ _ w => (ThrowsStd "boom", w).
Definition observer_throws_other : DragDropCallback World := fun _ _ w => (ThrowsOther, w).

Definition dragging_with (f : DragDropCallback World) (w : World) : State World :=
  mkState (Some element) (Some f) w [].

End Fixture.

(** ** Vocabulary of the properties *)

(** The calls by which a drop takes effect: docking, a window or toolbar
    position update, the observer. *)
Definition is_drop_effect (ev : Event) : bool :=
  match ev with
  | EvDockElement _ _ => true
  | EvUpdateWindowPosition _ _ _ => true
  | EvUpdateToolbarPosition _ _ _ => true
  | EvCallback _ _ => true
  | _ => false
  end.

(** The member [key] of a document, if the document is an object that has it. *)
Definition json_member (j : json) (key : string) : option json :=
  match j with
  | json_object members => object_find key members
  | _ => None
  end.

(** The characters a workspace name may be made of, spelled out: letters,
    digits, underscore, hyphen. *)
Definition name_alphabet : string :=
  "abcdefghijklmnopqrstuvwxyzABCDEFGHIJKLMNOPQRSTUVWXYZ0123456789_-".

Definition in_name_alphabet (c : ascii) : bool :=
  existsb (Ascii.eqb c) (list_ascii_of_string name_alphabet).

(** The state in which a call that returned leaves the coordinator. *)
Definition after_call {W : Type} (s : State W) (w' : W) (calls : list Event) : State W :=
  mkState (current_drag_ s) (drag_drop_callback_ s) w' (trace s ++ calls).

(** What a workspace document holds, given the drag current at the time it
    was built. *)
Definition workspace_document (current : option DraggableElement.t) (doc : json) : Prop :=
  json_member doc "version" = Some (json_string "1.0")
  /\ (exists now, json_member doc "timestamp" = Some (json_integer now))
  /\ json_contains doc "windows" = true
  /\ json_contains doc "docking" = true
  /\ json_contains doc "toolbars" = true
  /\ match current with
     | Some d =>
         exists drag_state,
           json_member doc "drag_state" = Some drag_state
           /\ json_member drag_state "element_id" = Some (json_integer (DraggableElement.id d))
           /\ json_member drag_state "element_type"
              = Some (json_string (DraggableElement.type d))
     | None => json_contains doc "drag_state" = false
     end.

(** The document [doc] was collected in state [s], leaving [s0]: the window,
    docking and toolbar managers and the clock were asked, in this order,
    and answered; [doc] holds under [windows], [docking], [toolbars] and
    [timestamp] what each of them answered, under [version] the format tag,
    under [drag_state] the six fields of the current drag if there is one,
    and no other member. *)
Definition collected_from {W : Type} (env : Env W) (s : State W) (doc : json) (s0 : State W)
  : Prop :=
  exists windows docking toolbars now w1 w2 w3 w4,
    window_SerializeState env (world s) = (Returns windows, w1)
    /\ docking_SerializeState env w1 = (Returns docking, w2)
    /\ toolbar_SerializeState env w2 = (Returns toolbars, w3)
    /\ clock_now env w3 = (Returns now, w4)
    /\ json_member doc "windows" = Some windows
    /\ json_member doc "docking" = Some docking
    /\ json_member doc "toolbars" = Some toolbars
    /\ json_member doc "timestamp" = Some (json_integer now)
    /\ json_member doc "version" = Some (json_string "1.0")
    /\ match current_drag_ s with
       | Some d =>
           exists drag_state,
             json_member doc "drag_state" = Some drag_state
             /\ json_member drag_state "element_id"
                = Some (json_integer (DraggableElement.id d))
             /\ json_member drag_state "element_type"
                = Some (json_string (DraggableElement.type d))
             /\ json_member drag_state "position_x"
                = Some (json_float (DraggableElement.x d))
             /\ json_member drag_state "position_y"
                = Some (json_float (DraggableElement.y d))
             /\ json_member drag_state "is_docked"
                = Some (json_boolean (DraggableElement.isDocked d))
             /\ json_member drag_state "dock_location"
                = Some (json_string (DraggableElement.dockLocation d))
       | None => json_member doc "drag_state" = None
       end
    /\ (forall key v,
           json_member doc key = Some v ->
           In key ["windows"; "docking"; "toolbars"; "drag_state"; "version"; "timestamp"])
    /\ s0 = after_call s w4 [EvSerializeState Windows; EvSerializeState Docking;
                             EvSerializeState Toolbars; EvClockNow].

(** ** Further vocabulary: the constructor, accepted drops, frames *)

(** The constructor: both members null, and [std::filesystem::
    create_directories("workspaces")], which is handed in as the filesystem
    operation it is.  The trace of a new coordinator is empty. *)
Definition WorkspaceManager_new {W : Type} (create_directories : string -> extern W bool)
  : W -> outcome (State W) * W :=
  fun w =>
    match create_directories "workspaces" w with
    | (Returns _, w') => (Returns (mkState None None w' []), w')
    | (ThrowsStd what, w') => (ThrowsStd what, w')
    | (ThrowsOther, w') => (ThrowsOther, w')
    end.

(** The handler of the [try] block of [EndDrag]. *)
Definition EndDrag_handler {W : Type} (what : string) : M W Error :=
  bind delete_current_drag
    (fun _ => ret (Error_ ("Failed to complete drag operation: " ++ what))).

Definition is_dock_event (ev : Event) : bool :=
  match ev with
  | EvDockElement _ _ => true
  | _ => false
  end.

Definition is_callback_event (ev : Event) : bool :=
  match ev with
  | EvCallback _ _ => true
  | _ => false
  end.

Definition is_manager_event (ev : Event) : bool :=
  match ev with
  | EvSerializeState _ => true
  | EvDeserializeState _ _ => true
  | _ => false
  end.

(** [EndDrag] got past its first two steps and stands in [s2]: the target was
    found valid, and the docking manager, if the target is docked, answered
    with success. *)
Definition drop_accepted {W : Type} (env : Env W) (s : State W)
           (dragged target : DraggableElement.t) (s2 : State W) : Prop :=
  exists s1,
    IsValidDropTarget env (DraggableElement.x target) (DraggableElement.y target) s
    = (Returns true, s1)
    /\ (DraggableElement.isDocked target = false /\ s2 = s1
        \/ DraggableElement.isDocked target = true
           /\ exists r,
             call (EvDockElement (DraggableElement.id dragged)
                     (DraggableElement.dockLocation target))
                  (docking_DockElement env (DraggableElement.id dragged)
                     (DraggableElement.dockLocation target)) s1 = (Returns r, s2)
             /\ IsSuccess r = true).

(** The observer step of [EndDrag] went from [s2] to [s3]: no observer is
    registered, or the registered one was called and returned. *)
Definition observer_returned {W : Type} (s2 : State W)
           (dragged target : DraggableElement.t) (s3 : State W) : Prop :=
  match drag_drop_callback_ s2 with
  | None => s3 = s2
  | Some f => call (EvCallback dragged target) (f dragged target) s2 = (Returns tt, s3)
  end.

(** A computation that leaves a member of the coordinator as it found it,
    however it ends. *)
Definition preserves {W A X : Type} (member : State W -> X) (m : M W A) : Prop :=
  forall s, member (snd (m s)) = member s.

(** ** A second environment, with faults

    The fixture again, with one operation made to throw, a parser that knows
    two incomplete documents more, and a directory that holds other files
    besides workspaces. *)

Module Faulty.

Inductive Fault : Type :=
| SerializeThrows
| DeserializeThrows
| DumpThrows
| ExistsThrows
| RemoveThrows
| UpdateThrows
| NoFault.

Definition parse (text : string) : outcome json :=
  if String.eqb text "no-windows" then
    Returns (json_object [("version", json_string "1.0")])
  else if String.eqb text "no-docking" then
    Returns (json_object [("version", json_string "1.0"); ("windows", json_object [])])
  else if String.eqb text "saved" then
    Returns (json_object [("docking", json_object []); ("timestamp", json_integer 1700000000);
                          ("toolbars", json_object []); ("version", json_string "1.0");
                          ("windows", json_object [])])
  else Fixture.parse text.

Definition env (fault : Fault) : Env Fixture.World := {|
  window_GetMainWindow := window_GetMainWindow Fixture.env;
  window_UpdateWindowPosition := fun id x y w =>
    match fault with
    | UpdateThrows => (ThrowsStd "window not found", w)
    | _ => window_UpdateWindowPosition Fixture.env id x y w
    end;
  window_SerializeState := fun w =>
    match fault with
    | SerializeThrows => (ThrowsStd "window manager not initialised", w)
    | _ => window_SerializeState Fixture.env w
    end;
  window_DeserializeState := fun j w =>
    match fault with
    | DeserializeThrows => (ThrowsStd "bad window state", w)
    | _ => window_DeserializeState Fixture.env j w
    end;
  docking_DockElement := docking_DockElement Fixture.env;
  docking_SerializeState := docking_SerializeState Fixture.env;
  docking_DeserializeState := docking_DeserializeState Fixture.env;
  toolbar_UpdateToolbarPosition := toolbar_UpdateToolbarPosition Fixture.env;
  toolbar_SerializeState := toolbar_SerializeState Fixture.env;
  toolbar_DeserializeState := toolbar_DeserializeState Fixture.env;
  ofstream_open := ofstream_open Fixture.env;
  ofstream_write := ofstream_write Fixture.env;
  ifstream_open := ifstream_open Fixture.env;
  filesystem_exists := fun path w =>
    match fault with
    | ExistsThrows => (ThrowsStd "filesystem error: status: Permission denied", w)
    | _ => filesystem_exists Fixture.env path w
    end;
  filesystem_remove := fun path w =>
    match fault with
    | RemoveThrows => (ThrowsStd "filesystem error: cannot remove: Permission denied", w)
    | _ => filesystem_remove Fixture.env path w
    end;
  directory_iterator := fun _ w =>
    (Returns [ {| path_stem := "layout"; path_extension := ".json" |};
               {| path_stem := "notes"; path_extension := ".txt" |};
               {| path_stem := "backup"; path_extension := ".json" |};
               {| path_stem := "archive"; path_extension := EmptyString |} ], w);
  clock_now := clock_now Fixture.env;
  LOG_INFO := LOG_INFO Fixture.env;
  json_parse := parse;
  json_dump := fun indent j =>
    match fault with
    | DumpThrows => ThrowsStd "[json.exception.type_error.316] invalid UTF-8 byte"
    | _ => json_dump Fixture.env indent j
    end;
  json_what := json_what Fixture.env
|}.

Definition world_files : Fixture.World :=
  Fixture.mkWorld true
    [("corrupted", "{ invalid json content"); ("partial", "no-docking");
     ("bare", "no-windows"); ("good", "version-1.0"); ("saved", "saved")]
    (Some Fixture.window_800x600) Error_Success Fixture.all_succeed.

(** [create_directories] of a filesystem that lets the directory be made. *)
Definition create_directories (path : string) : extern Fixture.World bool :=
  fun w =>
    (Returns (negb (Fixture.directory_present w)),
     Fixture.mkWorld true (Fixture.files w) (Fixture.main_window w)
       (Fixture.dock_result w) (Fixture.deserialize_result w)).

Definition toolbar : DraggableElement.t :=
  DraggableElement.Build 7 "toolbar" (Fixture.float_of_Z 10) (Fixture.float_of_Z 10)
    (Fixture.float_of_Z 300) (Fixture.float_of_Z 40) false EmptyString.

Definition panel : DraggableElement.t :=
  DraggableElement.Build 9 "panel" (Fixture.float_of_Z 10) (Fixture.float_of_Z 10)
    (Fixture.float_of_Z 300) (Fixture.float_of_Z 40) false EmptyString.

Definition dragging (d : DraggableElement.t) (w : Fixture.World) : State Fixture.World :=
  mkState (Some d) None w [].

End Faulty.

(** ** Running the computations *)

Ltac unfold_monad :=
  unfold bind, ret, throw, lift, try_catch, call, get_current_drag, set_current_drag,
    get_callback in *.

(** Projections of a state that is written out. *)
Ltac simpl_state := cbn [current_drag_ drag_drop_callback_ world trace fst snd] in *.

(** Case analysis on whatever a computation inspects next. *)
Ltac break_match :=
  match goal with
  | |- context [match ?e with _ => _ end] =>
      lazymatch e with
      | context [match _ with _ => _ end] => fail
      | _ => destruct e eqn:?
      end
  end.

Ltac unfold_drag :=
  unfold BeginDrag, UpdateDragPosition, EndDrag, EndDrag_body, EndDrag_finish,
    IsValidDropTarget, delete_current_drag, GetDraggedElement in *;
  unfold_monad.

Ltac unfold_io :=
  unfold SaveWorkspace, LoadWorkspace, DeleteWorkspace, GetAvailableWorkspaces,
    DeserializeAndApplyState, SerializeCurrentState,
    json_at, json_get_string, json_assign, json_throw in *;
  unfold_monad.

(** ** Facts about the values *)

(** Comparing the other way round. *)
Lemma SFcompare_Lt_Gt (a b : float) : SFcompare a b = Some Lt -> SFcompare b a = Some Gt.
Proof.
  destruct a as [sa | sa | | sa ma ea], b as [sb | sb | | sb mb eb]; simpl;
    try discriminate; try reflexivity;
    try (destruct sa; discriminate || reflexivity);
    try (destruct sb; discriminate || reflexivity);
    try (destruct sa, sb; discriminate || reflexivity).
  pose proof (Pos.compare_cont_antisym ma mb Eq) as A; simpl in A.
  destruct sa, sb; try discriminate; try reflexivity;
    rewrite (Z.compare_antisym ea eb), <- A;
    destruct (Z.compare ea eb); simpl; try discriminate; try reflexivity;
    destruct (Pos.compare_cont Eq ma mb); simpl; discriminate || reflexivity.
Qed.

(** [b < a] excludes [a <= b]. *)
Lemma float_lt_not_le (a b : float) : float_lt b a = true -> float_le a b = false.
Proof.
  unfold float_lt, float_le, SFltb, SFleb. intros H.
  destruct (SFcompare b a) as [[ | | ] | ] eqn:E; try discriminate.
  rewrite (SFcompare_Lt_Gt _ _ E). reflexivity.
Qed.

(** A NaN coordinate is neither negative nor within any bound. *)
Lemma float_le_nan (b : float) : float_le S754_nan b = false.
Proof. reflexivity. Qed.

Section DragLifecycle.

Context {W : Type} (env : Env W).

(** *** The guards of the state machine *)

Lemma BeginDrag_while_dragging (s : State W) (element dragged : DraggableElement.t) :
  current_drag_ s = Some dragged ->
  BeginDrag env element s = (Returns (Error_ "A drag operation is already in progress"), s).
Proof. intros H. unfold_drag. rewrite H. reflexivity. Qed.

Lemma BeginDrag_while_idle (s : State W) (element : DraggableElement.t) (w' : W) :
  current_drag_ s = None ->
  LOG_INFO env (DraggableElement.type element) (DraggableElement.id element) (world s)
  = (Returns tt, w') ->
  BeginDrag env element s =
  (Returns Error_Success,
   mkState (Some element) (drag_drop_callback_ s) w'
     (trace s ++ [EvLogInfo (DraggableElement.type element) (DraggableElement.id element)])).
Proof. intros H L. unfold_drag. rewrite H. simpl_state. rewrite L. reflexivity. Qed.

Lemma UpdateDragPosition_while_idle (s : State W) (x y : float) :
  current_drag_ s = None ->
  UpdateDragPosition x y s = (Returns (Error_ "No drag operation in progress"), s).
Proof. intros H. unfold_drag. rewrite H. reflexivity. Qed.

Lemma EndDrag_while_idle (s : State W) (target : DraggableElement.t) :
  current_drag_ s = None ->
  EndDrag env target s = (Returns (Error_ "No drag operation in progress"), s).
Proof. intros H. unfold_drag. rewrite H. reflexivity. Qed.

(** *** [EndDrag] and exceptions *)

(** Every way [EndDrag] can end when a drag is active: it returns with the
    drag released, or something that is no [std::exception] escapes. *)
Lemma EndDrag_exits (s : State W) (target dragged : DraggableElement.t) :
  current_drag_ s = Some dragged ->
  match EndDrag env target s with
  | (Returns _, s') => current_drag_ s' = None
  | (ThrowsStd _, _) => False
  | (ThrowsOther, _) => True
  end.
Proof.
  intros H. unfold_drag. rewrite H.
  repeat (break_match; simpl; try exact I; try reflexivity).
Qed.

Lemma EndDrag_returns_cleared (s s' : State W) (target dragged : DraggableElement.t)
      (result : Error) :
  current_drag_ s = Some dragged ->
  EndDrag env target s = (Returns result, s') ->
  current_drag_ s' = None.
Proof.
  intros H E. pose proof (EndDrag_exits s target dragged H) as X.
  rewrite E in X. exact X.
Qed.

(** The validity check reads the window manager and nothing else: the
    coordinator's own members are as before, and the trace grows by at most
    the one query. *)
Lemma IsValidDropTarget_frame (s s' : State W) (x y : float) (o : outcome bool) :
  IsValidDropTarget env x y s = (o, s') ->
  current_drag_ s' = current_drag_ s /\
  drag_drop_callback_ s' = drag_drop_callback_ s /\
  (trace s' = trace s \/ trace s' = trace s ++ [EvGetMainWindow]).
Proof.
  unfold_drag.
  repeat (break_match; simpl);
    intros E; inversion E; subst; simpl; auto.
Qed.

(** What the check answers, from what the window manager answers. *)
Lemma IsValidDropTarget_negative (s : State W) (x y : float) :
  float_lt x float_zero = true \/ float_lt y float_zero = true ->
  IsValidDropTarget env x y s = (Returns false, s).
Proof.
  intros H. unfold_drag.
  replace (float_lt x float_zero || float_lt y float_zero) with true; [reflexivity|].
  destruct H as [H | H]; rewrite H; [reflexivity | now rewrite orb_true_r].
Qed.

Lemma IsValidDropTarget_no_main_window (s : State W) (x y : float) (w' : W) :
  window_GetMainWindow env (world s) = (Returns None, w') ->
  exists s', IsValidDropTarget env x y s = (Returns false, s') /\
             current_drag_ s' = current_drag_ s /\
             drag_drop_callback_ s' = drag_drop_callback_ s.
Proof.
  intros H. unfold_drag.
  destruct (float_lt x float_zero || float_lt y float_zero); simpl; eauto.
  rewrite H. simpl. eauto.
Qed.

Lemma IsValidDropTarget_beyond (s : State W) (x y : float) (mw : MainWindow) (w' : W) :
  window_GetMainWindow env (world s) = (Returns (Some mw), w') ->
  float_lt (GetWidth mw) x = true \/ float_lt (GetHeight mw) y = true ->
  exists s', IsValidDropTarget env x y s = (Returns false, s') /\
             current_drag_ s' = current_drag_ s /\
             drag_drop_callback_ s' = drag_drop_callback_ s /\
             (trace s' = trace s \/ trace s' = trace s ++ [EvGetMainWindow]).
Proof.
  intros H B. unfold_drag.
  assert (float_le x (GetWidth mw) && float_le y (GetHeight mw) = false) as F.
  { destruct B as [B | B]; rewrite (float_lt_not_le _ _ B);
      [reflexivity | now rewrite andb_false_r]. }
  destruct (float_lt x float_zero || float_lt y float_zero); simpl; eauto 10.
  rewrite H. simpl. rewrite F. eauto 10.
Qed.

(** A rejected target ends the drag at once. *)
Lemma EndDrag_rejected (s s1 : State W) (target dragged : DraggableElement.t) :
  current_drag_ s = Some dragged ->
  IsValidDropTarget env (DraggableElement.x target) (DraggableElement.y target) s
  = (Returns false, s1) ->
  EndDrag env target s =
  (Returns (Error_ "Invalid drop target location"),
   mkState None (drag_drop_callback_ s1) (world s1) (trace s1)).
Proof.
  intros H V. unfold EndDrag, EndDrag_body. unfold_monad.
  rewrite H, V. reflexivity.
Qed.

(** *** The claims about the drag lifecycle *)

(** C6.  The state machine guards its transitions: [BeginDrag] during a drag
    fails with "A drag operation is already in progress" and changes nothing
    (the first drag stays active); [UpdateDragPosition] and [EndDrag] without
    a drag fail with "No drag operation in progress" and change nothing. *)
Theorem drag_state_machine_guards (s : State W) :
  (forall element dragged,
      current_drag_ s = Some dragged ->
      BeginDrag env element s =
      (Returns (Error_ "A drag operation is already in progress"), s)
      /\ GetDraggedElement s = (Returns (Some dragged), s))
  /\ (forall x y,
         current_drag_ s = None ->
         UpdateDragPosition x y s = (Returns (Error_ "No drag operation in progress"), s))
  /\ (forall target,
         current_drag_ s = None ->
         EndDrag env target s = (Returns (Error_ "No drag operation in progress"), s)).
Proof.
  repeat split.
  - now apply BeginDrag_while_dragging with (dragged := dragged).
  - unfold GetDraggedElement, get_current_drag. now rewrite H.
  - now apply UpdateDragPosition_while_idle.
  - now apply EndDrag_while_idle.
Qed.

(** C4.  From every state with an active drag, whenever [EndDrag] returns
    (success, invalid target, docking failure, or a caught exception) the
    drag is gone: [GetDraggedElement] yields nothing.  No [std::exception]
    leaves [EndDrag], so these are all its returns. *)
Theorem EndDrag_clears_active_drag (s s' : State W) (target dragged : DraggableElement.t)
        (o : outcome Error) :
  current_drag_ s = Some dragged ->
  EndDrag env target s = (o, s') ->
  (forall what, o <> ThrowsStd what)
  /\ (forall result, o = Returns result ->
        current_drag_ s' = None /\ GetDraggedElement s' = (Returns None, s')).
Proof.
  intros H E. pose proof (EndDrag_exits s target dragged H) as X. rewrite E in X.
  split.
  - intros what ->. exact X.
  - intros result ->. split; [exact X|].
    unfold GetDraggedElement, get_current_drag. now rewrite X.
Qed.

(** C10.  When the window manager has no main window, [IsValidDropTarget] is
    false for every pair of coordinates, and [EndDrag] of an active drag
    fails with "Invalid drop target location" whatever the coordinates. *)
Theorem no_main_window_rejects_every_drop (s : State W) (w' : W) :
  window_GetMainWindow env (world s) = (Returns None, w') ->
  (forall x y, fst (IsValidDropTarget env x y s) = Returns false)
  /\ (forall target dragged,
         current_drag_ s = Some dragged ->
         exists s', EndDrag env target s =
                    (Returns (Error_ "Invalid drop target location"), s')
                    /\ current_drag_ s' = None).
Proof.
  intros H. split.
  - intros x y. destruct (IsValidDropTarget_no_main_window s x y w' H) as (s1 & E & _).
    now rewrite E.
  - intros target dragged D.
    destruct (IsValidDropTarget_no_main_window s (DraggableElement.x target)
                (DraggableElement.y target) w' H) as (s1 & E & _).
    rewrite (EndDrag_rejected s s1 target dragged D E). eauto.
Qed.

(** C5.  With a drag active, a target with a negative coordinate, or with a
    coordinate beyond the width or height of the main window the window
    manager reports, makes [EndDrag] fail with "Invalid drop target
    location"; the drag is released, the observer slot is untouched, and the
    calls made are at most the query of the main window: no docking call, no
    position update, no observer call. *)
Theorem EndDrag_outside_main_window (s : State W) (target dragged : DraggableElement.t) :
  current_drag_ s = Some dragged ->
  (float_lt (DraggableElement.x target) float_zero = true
   \/ float_lt (DraggableElement.y target) float_zero = true
   \/ exists mw w',
       window_GetMainWindow env (world s) = (Returns (Some mw), w')
       /\ (float_lt (GetWidth mw) (DraggableElement.x target) = true
           \/ float_lt (GetHeight mw) (DraggableElement.y target) = true)) ->
  exists s' calls,
    EndDrag env target s = (Returns (Error_ "Invalid drop target location"), s')
    /\ current_drag_ s' = None
    /\ drag_drop_callback_ s' = drag_drop_callback_ s
    /\ trace s' = trace s ++ calls
    /\ forallb (fun ev => negb (is_drop_effect ev)) calls = true.
Proof.
  intros D O.
  assert (exists s1, IsValidDropTarget env (DraggableElement.x target)
                       (DraggableElement.y target) s = (Returns false, s1)
                     /\ drag_drop_callback_ s1 = drag_drop_callback_ s
                     /\ (trace s1 = trace s \/ trace s1 = trace s ++ [EvGetMainWindow]))
    as (s1 & V & C & T).
  { destruct O as [N | [N | (mw & w' & G & B)]].
    - exists s. split; [apply IsValidDropTarget_negative|]; auto.
    - exists s. split; [apply IsValidDropTarget_negative|]; auto.
    - destruct (IsValidDropTarget_beyond s _ _ mw w' G B) as (s1 & V & _ & C & T).
      eauto. }
  rewrite (EndDrag_rejected s s1 target dragged D V).
  destruct T as [T | T].
  - eexists; exists []; simpl. rewrite app_nil_r. repeat split; auto.
  - eexists; exists [EvGetMainWindow]; simpl. repeat split; auto.
Qed.

(** C3, amended.  When the target is accepted and the docking step (if any)
    succeeds, a registered observer is called with the dragged element and
    the target.  An exception derived from [std::exception] that it throws
    is caught by [EndDrag]: the drag is released, no position update is
    made, and "Failed to complete drag operation: " followed by the
    exception's text is returned.  Only an exception that is no
    [std::exception] reaches the caller of [EndDrag]. *)
Theorem EndDrag_observer_exception (s s1 s2 : State W) (target dragged : DraggableElement.t)
        (f : DragDropCallback W) :
  current_drag_ s = Some dragged ->
  drag_drop_callback_ s = Some f ->
  IsValidDropTarget env (DraggableElement.x target) (DraggableElement.y target) s
  = (Returns true, s1) ->
  (DraggableElement.isDocked target = false /\ s2 = s1
   \/ DraggableElement.isDocked target = true
      /\ exists r,
        call (EvDockElement (DraggableElement.id dragged) (DraggableElement.dockLocation target))
             (docking_DockElement env (DraggableElement.id dragged)
                (DraggableElement.dockLocation target)) s1 = (Returns r, s2)
        /\ IsSuccess r = true) ->
  (exists o s' rest,
      EndDrag env target s = (o, s')
      /\ trace s' = trace s2 ++ EvCallback dragged target :: rest)
  /\ (forall what w3,
         f dragged target (world s2) = (ThrowsStd what, w3) ->
         EndDrag env target s =
         (Returns (Error_ ("Failed to complete drag operation: " ++ what)),
          mkState None (Some f) w3 (trace s2 ++ [EvCallback dragged target])))
  /\ (forall w3,
         f dragged target (world s2) = (ThrowsOther, w3) ->
         EndDrag env target s =
         (ThrowsOther,
          mkState (Some dragged) (Some f) w3 (trace s2 ++ [EvCallback dragged target]))).
Proof.
  intros D C V K.
  destruct (IsValidDropTarget_frame s s1 _ _ _ V) as (D1 & C1 & _).
  assert (current_drag_ s2 = Some dragged /\ drag_drop_callback_ s2 = Some f) as (D2 & C2).
  { destruct K as [(_ & ->) | (_ & r & E & _)].
    - split; congruence.
    - unfold call in E. destruct (docking_DockElement env _ _ (world s1)).
      inversion E; subst; simpl. split; congruence. }
  assert (EndDrag env target s =
          try_catch (EndDrag_finish env dragged target)
            (fun what => bind delete_current_drag
               (fun _ => ret (Error_ ("Failed to complete drag operation: " ++ what)))) s2)
    as R.
  { unfold EndDrag, EndDrag_body.
    unfold bind at 1, get_current_drag. rewrite D.
    unfold try_catch, bind at 1. rewrite V.
    change (negb true) with false. cbv iota.
    destruct K as [(N & ->) | (N & r & E & S)]; rewrite N.
    - reflexivity.
    - unfold bind at 1. rewrite E, S. reflexivity. }
  rewrite R. unfold EndDrag_finish, delete_current_drag. unfold_monad. rewrite C2.
  repeat split.
  - destruct (f dragged target (world s2)) as [[[] | what | ] w3]; simpl.
    + repeat (break_match; simpl); do 3 eexists; (split; [reflexivity|]); simpl;
        rewrite <- ?app_assoc; reflexivity.
    + do 3 eexists; split; [reflexivity|]. reflexivity.
    + do 3 eexists; split; [reflexivity|]. reflexivity.
  - intros what w3 E. rewrite E. simpl_state. now rewrite C2.
  - intros w3 E. rewrite E. simpl_state. now rewrite C2, D2.
Qed.

End DragLifecycle.

(** *** The drag lifecycle on the fixture *)

Lemma drag_state_machine_guards_witness :
  (current_drag_ (Fixture.dragging Fixture.world0) = Some Fixture.element
   /\ BeginDrag Fixture.env Fixture.target (Fixture.dragging Fixture.world0) =
      (Returns (Error_ "A drag operation is already in progress"),
       Fixture.dragging Fixture.world0))
  /\ (current_drag_ (Fixture.idle Fixture.world0) = None
      /\ UpdateDragPosition (Fixture.float_of_Z 200) (Fixture.float_of_Z 150)
           (Fixture.idle Fixture.world0) =
         (Returns (Error_ "No drag operation in progress"), Fixture.idle Fixture.world0))
  /\ EndDrag Fixture.env Fixture.element (Fixture.idle Fixture.world0) =
     (Returns (Error_ "No drag operation in progress"), Fixture.idle Fixture.world0).
Proof.
  split; [split; [reflexivity|] | split; [split; [reflexivity|] | ]].
  - apply (proj1 (drag_state_machine_guards Fixture.env (Fixture.dragging Fixture.world0))
             Fixture.target Fixture.element).
    reflexivity.
  - apply (proj1 (proj2 (drag_state_machine_guards Fixture.env (Fixture.idle Fixture.world0)))).
    reflexivity.
  - apply (proj2 (proj2 (drag_state_machine_guards Fixture.env (Fixture.idle Fixture.world0)))).
    reflexivity.
Defined.

Lemma EndDrag_clears_active_drag_witness :
  current_drag_ (Fixture.dragging Fixture.world0) = Some Fixture.element
  /\ fst (EndDrag Fixture.env Fixture.target (Fixture.dragging Fixture.world0))
     = Returns Error_Success
  /\ current_drag_ (snd (EndDrag Fixture.env Fixture.target (Fixture.dragging Fixture.world0)))
     = None.
Proof.
  split; [reflexivity|]. split; [reflexivity|].
  apply (proj2 (EndDrag_clears_active_drag Fixture.env
                  (Fixture.dragging Fixture.world0)
                  (snd (EndDrag Fixture.env Fixture.target (Fixture.dragging Fixture.world0)))
                  Fixture.target Fixture.element
                  (fst (EndDrag Fixture.env Fixture.target (Fixture.dragging Fixture.world0)))
                  eq_refl eq_refl) Error_Success).
  reflexivity.
Defined.

(** The four ways [EndDrag] returns, each with the drag released: success,
    a rejected target, a docking failure, a caught exception. *)
Example EndDrag_exit_paths :
  let cleared (r : outcome Error * State Fixture.World) := current_drag_ (snd r) in
  let result (r : outcome Error * State Fixture.World) := fst r in
  (result (EndDrag Fixture.env Fixture.target (Fixture.dragging Fixture.world0))
   = Returns Error_Success
   /\ cleared (EndDrag Fixture.env Fixture.target (Fixture.dragging Fixture.world0)) = None)
  /\ (result (EndDrag Fixture.env Fixture.target_outside (Fixture.dragging Fixture.world0))
      = Returns (Error_ "Invalid drop target location")
      /\ cleared (EndDrag Fixture.env Fixture.target_outside (Fixture.dragging Fixture.world0))
         = None)
  /\ (result (EndDrag Fixture.env Fixture.target_docked
                (Fixture.dragging Fixture.world_docking_fails))
      = Returns (Error_ "Unknown dock location")
      /\ cleared (EndDrag Fixture.env Fixture.target_docked
                    (Fixture.dragging Fixture.world_docking_fails)) = None)
  /\ (result (EndDrag Fixture.env Fixture.target
                (Fixture.dragging_with Fixture.observer_throws Fixture.world0))
      = Returns (Error_ "Failed to complete drag operation: boom")
      /\ cleared (EndDrag Fixture.env Fixture.target
                    (Fixture.dragging_with Fixture.observer_throws Fixture.world0)) = None).
Proof. repeat split. Qed.

(** A NaN coordinate is no valid drop target either. *)
Example EndDrag_nan_target :
  fst (EndDrag Fixture.env
         (DraggableElement.Build 2 "window" S754_nan (Fixture.float_of_Z 150)
            (Fixture.float_of_Z 200) (Fixture.float_of_Z 150) false EmptyString)
         (Fixture.dragging Fixture.world0))
  = Returns (Error_ "Invalid drop target location").
Proof. reflexivity. Qed.

(** The example of the spec: begin, move, drop on (200, 150). *)
Example drag_and_drop_example :
  let s1 := snd (BeginDrag Fixture.env Fixture.element (Fixture.idle Fixture.world0)) in
  let s2 := snd (UpdateDragPosition (Fixture.float_of_Z 200) (Fixture.float_of_Z 150) s1) in
  let s3 := snd (EndDrag Fixture.env Fixture.target s2) in
  option_map DraggableElement.x (current_drag_ s2) = Some (Fixture.float_of_Z 200)
  /\ option_map DraggableElement.y (current_drag_ s2) = Some (Fixture.float_of_Z 150)
  /\ fst (EndDrag Fixture.env Fixture.target s2) = Returns Error_Success
  /\ current_drag_ s3 = None
  /\ trace s3 = [EvLogInfo "window" 1; EvGetMainWindow;
                 EvUpdateWindowPosition 1 (Fixture.float_of_Z 200) (Fixture.float_of_Z 150)].
Proof. repeat split. Qed.

Lemma no_main_window_rejects_every_drop_witness :
  window_GetMainWindow Fixture.env (world (Fixture.dragging Fixture.world_no_main_window))
  = (Returns None, Fixture.world_no_main_window)
  /\ fst (IsValidDropTarget Fixture.env (Fixture.float_of_Z 200) (Fixture.float_of_Z 150)
            (Fixture.dragging Fixture.world_no_main_window)) = Returns false
  /\ exists s',
      EndDrag Fixture.env Fixture.target (Fixture.dragging Fixture.world_no_main_window)
      = (Returns (Error_ "Invalid drop target location"), s')
      /\ current_drag_ s' = None.
Proof.
  split; [reflexivity|]. split.
  - apply (proj1 (no_main_window_rejects_every_drop Fixture.env
                    (Fixture.dragging Fixture.world_no_main_window)
                    Fixture.world_no_main_window eq_refl)).
  - apply (proj2 (no_main_window_rejects_every_drop Fixture.env
                    (Fixture.dragging Fixture.world_no_main_window)
                    Fixture.world_no_main_window eq_refl) Fixture.target Fixture.element).
    reflexivity.
Defined.

Lemma EndDrag_outside_main_window_witness :
  float_lt (GetWidth Fixture.window_800x600) (DraggableElement.x Fixture.target_outside) = true
  /\ exists s' calls,
      EndDrag Fixture.env Fixture.target_outside (Fixture.dragging Fixture.world0)
      = (Returns (Error_ "Invalid drop target location"), s')
      /\ current_drag_ s' = None
      /\ drag_drop_callback_ s' = drag_drop_callback_ (Fixture.dragging Fixture.world0)
      /\ trace s' = trace (Fixture.dragging Fixture.world0) ++ calls
      /\ forallb (fun ev => negb (is_drop_effect ev)) calls = true.
Proof.
  split; [reflexivity|].
  apply (EndDrag_outside_main_window Fixture.env (Fixture.dragging Fixture.world0)
           Fixture.target_outside Fixture.element).
  - reflexivity.
  - right. right. exists Fixture.window_800x600, Fixture.world0.
    split; [reflexivity|]. left. reflexivity.
Defined.

(** C3, as stated, fails: an observer that throws [std::runtime_error("boom")]
    does not make [EndDrag] throw; [EndDrag] returns an error value and the
    drag is released. *)
Lemma EndDrag_observer_exception_counterexample :
  Fixture.observer_throws Fixture.element Fixture.target Fixture.world0
  = (ThrowsStd "boom", Fixture.world0)
  /\ fst (EndDrag Fixture.env Fixture.target
            (Fixture.dragging_with Fixture.observer_throws Fixture.world0))
     = Returns (Error_ "Failed to complete drag operation: boom")
  /\ fst (EndDrag Fixture.env Fixture.target
            (Fixture.dragging_with Fixture.observer_throws Fixture.world0))
     <> ThrowsStd "boom".
Proof. repeat split. discriminate. Qed.

Lemma EndDrag_observer_exception_witness :
  EndDrag Fixture.env Fixture.target
    (Fixture.dragging_with Fixture.observer_throws Fixture.world0)
  = (Returns (Error_ "Failed to complete drag operation: boom"),
     mkState None (Some Fixture.observer_throws) Fixture.world0
       [EvGetMainWindow; EvCallback Fixture.element Fixture.target])
  /\ EndDrag Fixture.env Fixture.target
       (Fixture.dragging_with Fixture.observer_throws_other Fixture.world0)
     = (ThrowsOther,
        mkState (Some Fixture.element) (Some Fixture.observer_throws_other) Fixture.world0
          [EvGetMainWindow; EvCallback Fixture.element Fixture.target]).
Proof.
  split.
  - apply (proj1 (proj2 (EndDrag_observer_exception Fixture.env
                           (Fixture.dragging_with Fixture.observer_throws Fixture.world0)
                           (mkState (Some Fixture.element) (Some Fixture.observer_throws)
                              Fixture.world0 [EvGetMainWindow])
                           (mkState (Some Fixture.element) (Some Fixture.observer_throws)
                              Fixture.world0 [EvGetMainWindow])
                           Fixture.target Fixture.element Fixture.observer_throws
                           eq_refl eq_refl eq_refl (or_introl (conj eq_refl eq_refl))))
             "boom" Fixture.world0).
    reflexivity.
  - apply (proj2 (proj2 (EndDrag_observer_exception Fixture.env
                           (Fixture.dragging_with Fixture.observer_throws_other Fixture.world0)
                           (mkState (Some Fixture.element) (Some Fixture.observer_throws_other)
                              Fixture.world0 [EvGetMainWindow])
                           (mkState (Some Fixture.element) (Some Fixture.observer_throws_other)
                              Fixture.world0 [EvGetMainWindow])
                           Fixture.target Fixture.element Fixture.observer_throws_other
                           eq_refl eq_refl eq_refl (or_introl (conj eq_refl eq_refl))))
             Fixture.world0).
    reflexivity.
Defined.

(** ** Names *)

(** The ranges of the bracket expression are the 64 characters of the
    alphabet and no other. *)
Lemma valid_name_char_alphabet (c : ascii) : valid_name_char c = in_name_alphabet c.
Proof. destruct c as [[] [] [] [] [] [] [] []]; reflexivity. Qed.

Lemma all_chars_forall (p : ascii -> bool) (s : string) :
  all_chars p s = true <-> (forall c, In c (list_ascii_of_string s) -> p c = true).
Proof.
  induction s as [| a s IH]; simpl.
  - split; [intros _ c [] | reflexivity].
  - rewrite andb_true_iff, IH. split.
    + intros [Ha Hs] c [<- | Hc]; auto.
    + intros H. split; [apply H; now left | intros c Hc; apply H; now right].
Qed.


Lemma regex_match_valid_name_all_chars (name : string) :
  name <> EmptyString ->
  regex_match_valid_name name = all_chars valid_name_char name.
Proof. destruct name; [congruence | reflexivity]. Qed.

Lemma ValidateWorkspaceName_empty :
  ValidateWorkspaceName EmptyString = Error_ "Workspace name cannot be empty".
Proof. reflexivity. Qed.


Lemma ValidateWorkspaceName_valid (name : string) :
  name <> EmptyString ->
  (forall c, In c (list_ascii_of_string name) -> valid_name_char c = true) ->
  ValidateWorkspaceName name = Error_Success.
Proof.
  intros N X. unfold ValidateWorkspaceName.
  rewrite (regex_match_valid_name_all_chars name N).
  rewrite (proj2 (all_chars_forall _ _) X).
  destruct name; [congruence | reflexivity].
Qed.

(** ** Documents *)

Lemma object_find_insert_same (key : string) (v : json) (members : list (string * json)) :
  object_find key (object_insert key v members) = Some v.
Proof.
  induction members as [| [k u] rest IH]; simpl.
  - now rewrite String.eqb_refl.
  - destruct (String.compare key k) eqn:C; simpl.
    + now rewrite String.eqb_refl.
    + now rewrite String.eqb_refl.
    + destruct (String.eqb key k) eqn:E; [|exact IH].
      apply String.eqb_eq in E. subst k.
      pose proof (String.compare_antisym key key) as A.
      rewrite C in A. discriminate.
Qed.

Lemma object_find_insert_other (key key' : string) (v : json) (members : list (string * json)) :
  key' <> key ->
  object_find key' (object_insert key v members) = object_find key' members.
Proof.
  intros N. apply String.eqb_neq in N.
  induction members as [| [k u] rest IH]; simpl.
  - now rewrite N.
  - destruct (String.compare key k) eqn:C; simpl.
    + apply String.compare_eq_iff in C. subst k. now rewrite N.
    + now rewrite N.
    + now rewrite IH.
Qed.

(** ** Saving, loading, listing, deleting *)

Section Persistence.

Context {W : Type} (env : Env W).

(** *** Exceptions at the boundary *)

(** Applying a document touches neither the drag nor the observer, and its
    handler leaves no [std::exception] to the caller. *)
Lemma DeserializeAndApplyState_exits (state : json) (s : State W) :
  match DeserializeAndApplyState env state s with
  | (ThrowsStd _, _) => False
  | (_, s') =>
      current_drag_ s' = current_drag_ s /\ drag_drop_callback_ s' = drag_drop_callback_ s
  end.
Proof.
  unfold_io. repeat (break_match; simpl_state); auto.
Qed.

Lemma LoadWorkspace_exits (name : string) (s : State W) :
  match LoadWorkspace env name s with
  | (ThrowsStd _, _) => False
  | (_, s') =>
      current_drag_ s' = current_drag_ s /\ drag_drop_callback_ s' = drag_drop_callback_ s
  end.
Proof.
  unfold LoadWorkspace. unfold_monad.
  destruct (ifstream_open env (GetWorkspacePath name) (world s)) as [[[text |] | what |] w'];
    simpl_state; auto.
  destruct (json_parse env text) as [state | what |]; simpl_state; auto.
  pose proof (DeserializeAndApplyState_exits state
                (mkState (current_drag_ s) (drag_drop_callback_ s) w'
                   (trace s ++ [EvIfstreamOpen (GetWorkspacePath name)]))) as X.
  destruct (DeserializeAndApplyState env state _) as [[r | what |] s']; simpl_state;
    [exact X | contradiction | exact X].
Qed.

Lemma SaveWorkspace_catches_std (name : string) (s s' : State W) (what : string) :
  SaveWorkspace env name s <> (ThrowsStd what, s').
Proof.
  unfold SaveWorkspace.
  destruct (negb (IsSuccess (ValidateWorkspaceName name))); [discriminate|].
  unfold try_catch. destruct (bind _ _ s) as [[r | e |] s0]; discriminate.
Qed.

Lemma LoadWorkspace_catches_std (name : string) (s s' : State W) (what : string) :
  LoadWorkspace env name s <> (ThrowsStd what, s').
Proof.
  intros E. pose proof (LoadWorkspace_exits name s) as X. now rewrite E in X.
Qed.

Lemma DeleteWorkspace_catches_std (name : string) (s s' : State W) (what : string) :
  DeleteWorkspace env name s <> (ThrowsStd what, s').
Proof.
  unfold DeleteWorkspace, try_catch.
  destruct (bind _ _ s) as [[r | e |] s0]; discriminate.
Qed.

(** [GetAvailableWorkspaces] has no handler: what the directory iterator
    throws reaches the caller. *)
Lemma GetAvailableWorkspaces_propagates (s : State W) (what : string) (w' : W) :
  directory_iterator env "workspaces" (world s) = (ThrowsStd what, w') ->
  GetAvailableWorkspaces env s =
  (ThrowsStd what, after_call s w' [EvDirectoryIterator "workspaces"]).
Proof. intros H. unfold_io. now rewrite H. Qed.

(** *** Loading *)

(** Once the file is open and parsed, loading is applying the document. *)
Lemma LoadWorkspace_applies (name text : string) (doc : json) (s : State W) (w' : W) :
  ifstream_open env (GetWorkspacePath name) (world s) = (Returns (Some text), w') ->
  json_parse env text = Returns doc ->
  LoadWorkspace env name s =
  DeserializeAndApplyState env doc (after_call s w' [EvIfstreamOpen (GetWorkspacePath name)]).
Proof.
  intros O P. unfold LoadWorkspace, try_catch, bind at 1, call at 1. rewrite O.
  unfold bind at 1, lift. rewrite P. unfold after_call.
  pose proof (DeserializeAndApplyState_exits doc
                (mkState (current_drag_ s) (drag_drop_callback_ s) w'
                   (trace s ++ [EvIfstreamOpen (GetWorkspacePath name)]))) as X.
  destruct (DeserializeAndApplyState env doc _) as [[r | what |] s']; simpl_state;
    [reflexivity | contradiction | reflexivity].
Qed.


Lemma DeserializeAndApplyState_unsupported (doc : json) (version : string) (s : State W) :
  json_member doc "version" = Some (json_string version) ->
  version <> "1.0" ->
  DeserializeAndApplyState env doc s =
  (Returns (Error_ "Unsupported workspace format version"), s).
Proof.
  intros V N. destruct doc; try discriminate. simpl in V.
  unfold_io. rewrite V. apply String.eqb_neq in N. now rewrite N.
Qed.

Lemma DeserializeAndApplyState_no_version (doc : json) (s : State W) :
  (forall version, json_member doc "version" <> Some (json_string version)) ->
  exists what,
    DeserializeAndApplyState env doc s =
    (Returns (Error_ ("Failed to apply workspace state: " ++ what)), s).
Proof.
  intros V. unfold_io.
  destruct doc as [ | | | | | | members]; try (eexists; reflexivity).
  simpl in V. destruct (object_find "version" members) as [v |]; [| eexists; reflexivity].
  destruct v as [ | | | | version | | ]; try (eexists; reflexivity).
  now destruct (V version).
Qed.

(** The three dispatches, in order, each cut short by the first failure. *)
Lemma DeserializeAndApplyState_dispatch (doc windows docking toolbars : json) (s : State W) :
  json_member doc "version" = Some (json_string "1.0") ->
  json_member doc "windows" = Some windows ->
  json_member doc "docking" = Some docking ->
  json_member doc "toolbars" = Some toolbars ->
  (forall r1 w1,
      window_DeserializeState env windows (world s) = (Returns r1, w1) ->
      IsSuccess r1 = false ->
      DeserializeAndApplyState env doc s =
      (Returns r1, after_call s w1 [EvDeserializeState Windows windows]))
  /\ (forall r1 w1 r2 w2,
         window_DeserializeState env windows (world s) = (Returns r1, w1) ->
         IsSuccess r1 = true ->
         docking_DeserializeState env docking w1 = (Returns r2, w2) ->
         IsSuccess r2 = false ->
         DeserializeAndApplyState env doc s =
         (Returns r2, after_call s w2 [EvDeserializeState Windows windows;
                                       EvDeserializeState Docking docking]))
  /\ (forall r1 w1 r2 w2 r3 w3,
         window_DeserializeState env windows (world s) = (Returns r1, w1) ->
         IsSuccess r1 = true ->
         docking_DeserializeState env docking w1 = (Returns r2, w2) ->
         IsSuccess r2 = true ->
         toolbar_DeserializeState env toolbars w2 = (Returns r3, w3) ->
         DeserializeAndApplyState env doc s =
         (Returns r3, after_call s w3 [EvDeserializeState Windows windows;
                                       EvDeserializeState Docking docking;
                                       EvDeserializeState Toolbars toolbars])).
Proof.
  intros V Hw Hd Ht. destruct doc; try discriminate. simpl in V, Hw, Hd, Ht.
  unfold after_call. repeat split.
  - intros r1 w1 E1 F1. unfold_io. rewrite V. simpl. rewrite Hw. simpl_state.
    rewrite E1, F1. reflexivity.
  - intros r1 w1 r2 w2 E1 S1 E2 F2. unfold_io. rewrite V. simpl. rewrite Hw. simpl_state.
    rewrite E1, S1. simpl. rewrite Hd. simpl_state. rewrite E2, F2. simpl.
    now rewrite <- app_assoc.
  - intros r1 w1 r2 w2 r3 w3 E1 S1 E2 S2 E3. unfold_io. rewrite V. simpl. rewrite Hw.
    simpl_state. rewrite E1, S1. simpl. rewrite Hd. simpl_state. rewrite E2, S2. simpl.
    rewrite Ht. simpl_state. rewrite E3. rewrite <- !app_assoc. simpl.
    destruct r3; reflexivity.
Qed.

(** *** Saving *)

(** The document [SerializeCurrentState] builds, whenever it builds one. *)
Lemma SerializeCurrentState_document (s s0 : State W) (doc : json) :
  SerializeCurrentState env s = (Returns doc, s0) ->
  json_member doc "version" = Some (json_string "1.0")
  /\ (exists now, json_member doc "timestamp" = Some (json_integer now))
  /\ (exists windows docking toolbars,
         json_member doc "windows" = Some windows
         /\ json_member doc "docking" = Some docking
         /\ json_member doc "toolbars" = Some toolbars
         /\ exists w1, window_SerializeState env (world s) = (Returns windows, w1))
  /\ match current_drag_ s with
     | Some d =>
         exists drag_state,
           json_member doc "drag_state" = Some drag_state
           /\ json_member drag_state "element_id" = Some (json_integer (DraggableElement.id d))
           /\ json_member drag_state "element_type"
              = Some (json_string (DraggableElement.type d))
     | None => json_contains doc "drag_state" = false
     end.
Proof.
  unfold_io.
  repeat (break_match; simpl_state); simpl; try discriminate;
    intros E; inversion E; subst; clear E;
    (split; [reflexivity|]); (split; [eexists; reflexivity|]);
    (split; [do 3 eexists; repeat split; try reflexivity; eauto|]);
    try reflexivity; eexists; repeat split; reflexivity.
Qed.

(** The document is built as soon as the three managers and the clock
    answer. *)
Lemma SerializeCurrentState_returns (s : State W) (windows docking toolbars : json)
      (now : Z) (w1 w2 w3 w4 : W) :
  window_SerializeState env (world s) = (Returns windows, w1) ->
  docking_SerializeState env w1 = (Returns docking, w2) ->
  toolbar_SerializeState env w2 = (Returns toolbars, w3) ->
  clock_now env w3 = (Returns now, w4) ->
  exists doc,
    SerializeCurrentState env s =
    (Returns doc,
     after_call s w4 [EvSerializeState Windows; EvSerializeState Docking;
                      EvSerializeState Toolbars; EvClockNow]).
Proof.
  intros E1 E2 E3 E4. unfold_io. unfold after_call. rewrite E1. simpl_state. simpl.
  rewrite E2. simpl_state. simpl. rewrite E3. simpl_state. simpl.
  destruct (current_drag_ s); simpl; rewrite E4; simpl; rewrite <- !app_assoc;
    eexists; reflexivity.
Qed.

(** A successful save wrote the dumped document, last of all. *)
Lemma SaveWorkspace_success (name : string) (s s' : State W) :
  SaveWorkspace env name s = (Returns Error_Success, s') ->
  exists doc text s0,
    SerializeCurrentState env s = (Returns doc, s0)
    /\ json_dump env 4 doc = Returns text
    /\ trace s' = trace s0 ++ [EvOfstreamOpen (GetWorkspacePath name);
                               EvOfstreamWrite (GetWorkspacePath name) text].
Proof.
  unfold SaveWorkspace.
  destruct (negb (IsSuccess (ValidateWorkspaceName name))) eqn:V.
  - unfold ret. intros E. inversion E as [[R S]]. rewrite R in V. discriminate.
  - unfold try_catch, bind at 1.
    destruct (SerializeCurrentState env s) as [[doc | what |] s0]; try discriminate.
    unfold_monad.
    destruct (ofstream_open env (GetWorkspacePath name) (world s0)) as [[[] | what |] w1];
      simpl; try discriminate.
    destruct (json_dump env 4 doc) as [text | what |] eqn:D; simpl; try discriminate.
    destruct (ofstream_write env (GetWorkspacePath name) text w1) as [[[] | what |] w2];
      simpl; try discriminate.
    intros E. inversion E; subst; clear E. simpl.
    exists doc, text, s0. rewrite <- app_assoc. repeat split. exact D.
Qed.

Lemma SerializeCurrentState_workspace_document (s s0 : State W) (doc : json) :
  SerializeCurrentState env s = (Returns doc, s0) ->
  workspace_document (current_drag_ s) doc.
Proof.
  intros E.
  destruct (SerializeCurrentState_document s s0 doc E)
    as (V & T & (jw & jd & jt & Hw & Hd & Ht & _) & D).
  unfold workspace_document, json_contains.
  destruct doc; try discriminate. simpl in Hw, Hd, Ht.
  rewrite Hw, Hd, Ht. auto 10.
Qed.

Lemma SaveWorkspace_succeeds (name text : string) (doc : json) (s s0 : State W) (w1 w2 : W) :
  ValidateWorkspaceName name = Error_Success ->
  SerializeCurrentState env s = (Returns doc, s0) ->
  ofstream_open env (GetWorkspacePath name) (world s0) = (Returns true, w1) ->
  json_dump env 4 doc = Returns text ->
  ofstream_write env (GetWorkspacePath name) text w1 = (Returns tt, w2) ->
  SaveWorkspace env name s =
  (Returns Error_Success,
   after_call s0 w2 [EvOfstreamOpen (GetWorkspacePath name);
                     EvOfstreamWrite (GetWorkspacePath name) text]).
Proof.
  intros V E O D Wr. unfold SaveWorkspace. rewrite V. simpl.
  unfold try_catch, bind at 1. rewrite E. unfold_monad. rewrite O. simpl.
  rewrite D. simpl. rewrite Wr. simpl. unfold after_call. now rewrite <- app_assoc.
Qed.

(** *** Deleting *)



(** *** The claims about persistence *)

(** C1, amended.  For a file that opens and parses to a document: if the
    document has a [version] member that is a string other than "1.0",
    [LoadWorkspace] fails with "Unsupported workspace format version",
    whatever its other members, and calls no manager; if it has no
    [version] member, or one that is no string, [LoadWorkspace] fails too,
    with "Failed to apply workspace state: " followed by the text of the
    JSON library's exception. *)
Theorem LoadWorkspace_version_check (name text : string) (doc : json) (s : State W) (w' : W) :
  ifstream_open env (GetWorkspacePath name) (world s) = (Returns (Some text), w') ->
  json_parse env text = Returns doc ->
  (forall version,
      json_member doc "version" = Some (json_string version) ->
      version <> "1.0" ->
      LoadWorkspace env name s =
      (Returns (Error_ "Unsupported workspace format version"),
       after_call s w' [EvIfstreamOpen (GetWorkspacePath name)]))
  /\ ((forall version, json_member doc "version" <> Some (json_string version)) ->
      exists what,
        LoadWorkspace env name s =
        (Returns (Error_ ("Failed to apply workspace state: " ++ what)),
         after_call s w' [EvIfstreamOpen (GetWorkspacePath name)])).
Proof.
  intros O P. rewrite (LoadWorkspace_applies name text doc s w' O P). split.
  - intros version V N. now apply DeserializeAndApplyState_unsupported with (version := version).
  - intros V. now apply DeserializeAndApplyState_no_version.
Qed.


(** C8.  For a document of version "1.0" holding [windows], [docking] and
    [toolbars], [LoadWorkspace] hands these to the window, docking and
    toolbar managers in this order; the first failure a manager returns ends
    the load and is returned as it is, the later managers not being called.
    The drag of the coordinator is what it was, whatever the document says
    under [drag_state]. *)
Theorem LoadWorkspace_dispatch (name text : string) (doc windows docking toolbars : json)
        (s : State W) (w0 : W) :
  ifstream_open env (GetWorkspacePath name) (world s) = (Returns (Some text), w0) ->
  json_parse env text = Returns doc ->
  json_member doc "version" = Some (json_string "1.0") ->
  json_member doc "windows" = Some windows ->
  json_member doc "docking" = Some docking ->
  json_member doc "toolbars" = Some toolbars ->
  let opened := EvIfstreamOpen (GetWorkspacePath name) in
  (forall r1 w1,
      window_DeserializeState env windows w0 = (Returns r1, w1) ->
      IsSuccess r1 = false ->
      LoadWorkspace env name s =
      (Returns r1, after_call s w1 [opened; EvDeserializeState Windows windows]))
  /\ (forall r1 w1 r2 w2,
         window_DeserializeState env windows w0 = (Returns r1, w1) ->
         IsSuccess r1 = true ->
         docking_DeserializeState env docking w1 = (Returns r2, w2) ->
         IsSuccess r2 = false ->
         LoadWorkspace env name s =
         (Returns r2, after_call s w2 [opened; EvDeserializeState Windows windows;
                                       EvDeserializeState Docking docking]))
  /\ (forall r1 w1 r2 w2 r3 w3,
         window_DeserializeState env windows w0 = (Returns r1, w1) ->
         IsSuccess r1 = true ->
         docking_DeserializeState env docking w1 = (Returns r2, w2) ->
         IsSuccess r2 = true ->
         toolbar_DeserializeState env toolbars w2 = (Returns r3, w3) ->
         LoadWorkspace env name s =
         (Returns r3, after_call s w3 [opened; EvDeserializeState Windows windows;
                                       EvDeserializeState Docking docking;
                                       EvDeserializeState Toolbars toolbars]))
  /\ current_drag_ (snd (LoadWorkspace env name s)) = current_drag_ s.
Proof.
  intros O P V Hw Hd Ht opened.
  pose proof (DeserializeAndApplyState_dispatch doc windows docking toolbars
                (after_call s w0 [opened]) V Hw Hd Ht) as (A & B & C).
  rewrite (LoadWorkspace_applies name text doc s w0 O P). fold opened.
  unfold after_call in *. simpl_state.
  repeat split.
  - intros r1 w1 E1 F1. rewrite (A r1 w1 E1 F1). now rewrite <- app_assoc.
  - intros r1 w1 r2 w2 E1 S1 E2 F2. rewrite (B r1 w1 r2 w2 E1 S1 E2 F2).
    now rewrite <- app_assoc.
  - intros r1 w1 r2 w2 r3 w3 E1 S1 E2 S2 E3. rewrite (C r1 w1 r2 w2 r3 w3 E1 S1 E2 S2 E3).
    now rewrite <- app_assoc.
  - pose proof (DeserializeAndApplyState_exits doc
                  (mkState (current_drag_ s) (drag_drop_callback_ s) w0 (trace s ++ [opened])))
      as X.
    destruct (DeserializeAndApplyState env doc _) as [[r | what |] s']; simpl_state;
      [apply X | contradiction | apply X].
Qed.

(** What [SerializeCurrentState] returns was collected from the managers
    and the clock. *)
Lemma SerializeCurrentState_collected (s s0 : State W) (doc : json) :
  SerializeCurrentState env s = (Returns doc, s0) ->
  collected_from env s doc s0.
Proof.
  unfold collected_from. unfold_io.
  repeat (break_match; simpl_state); simpl; try discriminate;
    intros E; inversion E; subst; clear E;
    do 8 eexists;
    (split; [first [reflexivity | eassumption]|]);
    (split; [first [reflexivity | eassumption]|]);
    (split; [first [reflexivity | eassumption]|]);
    (split; [first [reflexivity | eassumption]|]);
    (split; [reflexivity|]); (split; [reflexivity|]);
    (split; [reflexivity|]); (split; [reflexivity|]);
    (split; [reflexivity|]);
    (split; [first [reflexivity | eexists; repeat split; reflexivity]|]);
    (split; [| unfold after_call; rewrite <- ?app_assoc; simpl;
               match goal with
               | H : current_drag_ _ = _ |- _ => rewrite H; reflexivity
               end]);
    intros key v; simpl;
    repeat match goal with
           | |- context [String.eqb key ?k] =>
               destruct (String.eqb_spec key k);
               [subst key; intros _; simpl; tauto|]
           end;
    discriminate.
Qed.

(** C9.  The document [SerializeCurrentState] builds is collected from the
    managers and the clock: its [windows], [docking] and [toolbars] members
    are what the three [SerializeState] calls returned, its [timestamp] is
    the reading of the clock, its [version] is "1.0"; with a drag active it
    has a [drag_state] object whose [element_id] and [element_type] (and
    position and docking fields) are those of the drag, with no drag it has
    no [drag_state] member, and it has no member besides these.  A
    [SaveWorkspace] that succeeds has written the dump of this document to
    the workspace's file. *)
Theorem SaveWorkspace_document (s : State W) :
  (forall doc s0,
      SerializeCurrentState env s = (Returns doc, s0) ->
      workspace_document (current_drag_ s) doc
      /\ collected_from env s doc s0)
  /\ (forall name s',
         SaveWorkspace env name s = (Returns Error_Success, s') ->
         exists doc text s0,
           SerializeCurrentState env s = (Returns doc, s0)
           /\ workspace_document (current_drag_ s) doc
           /\ collected_from env s doc s0
           /\ json_dump env 4 doc = Returns text
           /\ trace s' = trace s0 ++ [EvOfstreamOpen (GetWorkspacePath name);
                                      EvOfstreamWrite (GetWorkspacePath name) text]).
Proof.
  split.
  - intros doc s0 S. split.
    + now apply SerializeCurrentState_workspace_document with (s0 := s0).
    + now apply SerializeCurrentState_collected.
  - intros name s' E.
    destruct (SaveWorkspace_success name s s' E) as (doc & text & s0 & S & D & T).
    exists doc, text, s0.
    split; [exact S|]. split.
    { now apply SerializeCurrentState_workspace_document with (s0 := s0). }
    split; [now apply SerializeCurrentState_collected|]. split; [exact D | exact T].
Qed.

End Persistence.

(** *** Persistence on the fixture *)

(** C1, as stated, fails: a document without a [version] member is refused,
    but not with the version message. *)
Lemma LoadWorkspace_missing_version_counterexample :
  ifstream_open Fixture.env (GetWorkspacePath "noversion") Fixture.world0
  = (Returns (Some "{}"), Fixture.world0)
  /\ json_parse Fixture.env "{}" = Returns (json_object [])
  /\ json_member (json_object []) "version" = None
  /\ fst (LoadWorkspace Fixture.env "noversion" (Fixture.idle Fixture.world0))
     = Returns (Error_ "Failed to apply workspace state: [json.exception.out_of_range.403] key 'version' not found")
  /\ fst (LoadWorkspace Fixture.env "noversion" (Fixture.idle Fixture.world0))
     <> Returns (Error_ "Unsupported workspace format version").
Proof. repeat split. discriminate. Qed.

Lemma LoadWorkspace_version_check_witness :
  LoadWorkspace Fixture.env "incompatible" (Fixture.idle Fixture.world0)
  = (Returns (Error_ "Unsupported workspace format version"),
     after_call (Fixture.idle Fixture.world0) Fixture.world0
       [EvIfstreamOpen (GetWorkspacePath "incompatible")])
  /\ exists what,
      LoadWorkspace Fixture.env "numeric" (Fixture.idle Fixture.world0)
      = (Returns (Error_ ("Failed to apply workspace state: " ++ what)),
         after_call (Fixture.idle Fixture.world0) Fixture.world0
           [EvIfstreamOpen (GetWorkspacePath "numeric")]).
Proof.
  split.
  - apply (proj1 (LoadWorkspace_version_check Fixture.env "incompatible" "version-2.0"
                    _ (Fixture.idle Fixture.world0) Fixture.world0 eq_refl eq_refl) "2.0").
    + reflexivity.
    + discriminate.
  - apply (proj2 (LoadWorkspace_version_check Fixture.env "numeric" "version-number"
                    _ (Fixture.idle Fixture.world0) Fixture.world0 eq_refl eq_refl)).
    intros version. discriminate.
Defined.

(** The failing input of C2: the workspace directory is gone, and the
    exception of the directory iterator leaves [GetAvailableWorkspaces],
    while its siblings answer with an error value in the same world. *)
Theorem GetAvailableWorkspaces_exception_escapes :
  fst (GetAvailableWorkspaces Fixture.env (Fixture.idle Fixture.world_no_directory))
  = ThrowsStd "filesystem error: directory iterator cannot open directory: No such file or directory [workspaces]"
  /\ fst (SaveWorkspace Fixture.env "workspace1" (Fixture.idle Fixture.world_no_directory))
     = Returns (Error_ "Failed to open workspace file for writing")
  /\ fst (LoadWorkspace Fixture.env "workspace1" (Fixture.idle Fixture.world_no_directory))
     = Returns (Error_ "Workspace file not found")
  /\ fst (DeleteWorkspace Fixture.env "workspace1" (Fixture.idle Fixture.world_no_directory))
     = Returns (Error_ "Workspace does not exist").
Proof. repeat split. Qed.

(** With the directory in place the names of the saved workspaces come back. *)
Example GetAvailableWorkspaces_example :
  fst (GetAvailableWorkspaces Fixture.env (Fixture.idle Fixture.world0))
  = Returns ["noversion"; "incompatible"; "good"; "a b"; "numeric"].
Proof. reflexivity. Qed.


(** The names of the spec: the empty name and "a b" are refused,
    "ok_1-2" is saved. *)
Example SaveWorkspace_names_example :
  fst (SaveWorkspace Fixture.env EmptyString (Fixture.idle Fixture.world0))
  = Returns (Error_ "Workspace name cannot be empty")
  /\ fst (SaveWorkspace Fixture.env "a b" (Fixture.idle Fixture.world0))
     = Returns (Error_ "Workspace name can only contain letters, numbers, underscores, and hyphens")
  /\ fst (SaveWorkspace Fixture.env "ok_1-2" (Fixture.idle Fixture.world0))
     = Returns Error_Success.
Proof. repeat split. Qed.

Lemma LoadWorkspace_dispatch_witness :
  LoadWorkspace Fixture.env "good" (Fixture.idle (Fixture.world_refusing Windows))
  = (Returns (Error_ "Invalid window state"),
     after_call (Fixture.idle (Fixture.world_refusing Windows)) (Fixture.world_refusing Windows)
       [EvIfstreamOpen (GetWorkspacePath "good");
        EvDeserializeState Windows (json_object [])])
  /\ LoadWorkspace Fixture.env "good" (Fixture.idle (Fixture.world_refusing Docking))
     = (Returns (Error_ "Invalid docking state"),
        after_call (Fixture.idle (Fixture.world_refusing Docking)) (Fixture.world_refusing Docking)
          [EvIfstreamOpen (GetWorkspacePath "good");
           EvDeserializeState Windows (json_object []);
           EvDeserializeState Docking (json_object [])])
  /\ LoadWorkspace Fixture.env "good" (Fixture.dragging Fixture.world0)
     = (Returns Error_Success,
        after_call (Fixture.dragging Fixture.world0) Fixture.world0
          [EvIfstreamOpen (GetWorkspacePath "good");
           EvDeserializeState Windows (json_object []);
           EvDeserializeState Docking (json_object []);
           EvDeserializeState Toolbars (json_object [])])
  /\ current_drag_ (snd (LoadWorkspace Fixture.env "good" (Fixture.idle Fixture.world0)))
     = None.
Proof.
  split; [|split; [|split]].
  - apply (proj1 (LoadWorkspace_dispatch Fixture.env "good" "version-1.0" _
                    (json_object []) (json_object []) (json_object [])
                    (Fixture.idle (Fixture.world_refusing Windows))
                    (Fixture.world_refusing Windows)
                    eq_refl eq_refl eq_refl eq_refl eq_refl eq_refl));
      reflexivity.
  - apply (proj1 (proj2 (LoadWorkspace_dispatch Fixture.env "good" "version-1.0" _
                    (json_object []) (json_object []) (json_object [])
                    (Fixture.idle (Fixture.world_refusing Docking))
                    (Fixture.world_refusing Docking)
                    eq_refl eq_refl eq_refl eq_refl eq_refl eq_refl))
             Error_Success (Fixture.world_refusing Docking));
      reflexivity.
  - apply (proj1 (proj2 (proj2 (LoadWorkspace_dispatch Fixture.env "good" "version-1.0" _
                    (json_object []) (json_object []) (json_object [])
                    (Fixture.dragging Fixture.world0) Fixture.world0
                    eq_refl eq_refl eq_refl eq_refl eq_refl eq_refl)))
             Error_Success Fixture.world0 Error_Success Fixture.world0);
      reflexivity.
  - apply (proj2 (proj2 (proj2 (LoadWorkspace_dispatch Fixture.env "good" "version-1.0" _
                    (json_object []) (json_object []) (json_object [])
                    (Fixture.idle Fixture.world0) Fixture.world0
                    eq_refl eq_refl eq_refl eq_refl eq_refl eq_refl)))).
Defined.

(** The document of "good" has a [drag_state] member; loading it while a
    drag is active leaves that drag as it is. *)
Example LoadWorkspace_ignores_drag_state :
  (exists doc,
      json_parse Fixture.env "version-1.0" = Returns doc
      /\ json_contains doc "drag_state" = true)
  /\ current_drag_ (snd (LoadWorkspace Fixture.env "good" (Fixture.dragging Fixture.world0)))
     = Some Fixture.element
  /\ current_drag_ (snd (LoadWorkspace Fixture.env "good" (Fixture.idle Fixture.world0)))
     = None.
Proof. split; [eexists; split; reflexivity | split; reflexivity]. Qed.

Lemma SaveWorkspace_document_witness :
  (exists doc text s0,
      SerializeCurrentState Fixture.env (Fixture.dragging Fixture.world0) = (Returns doc, s0)
      /\ workspace_document (Some Fixture.element) doc
      /\ collected_from Fixture.env (Fixture.dragging Fixture.world0) doc s0
      /\ json_dump Fixture.env 4 doc = Returns text
      /\ trace (snd (SaveWorkspace Fixture.env "drag_test" (Fixture.dragging Fixture.world0)))
         = trace s0 ++ [EvOfstreamOpen (GetWorkspacePath "drag_test");
                        EvOfstreamWrite (GetWorkspacePath "drag_test") text])
  /\ (exists doc text s0,
         SerializeCurrentState Fixture.env (Fixture.idle Fixture.world0) = (Returns doc, s0)
         /\ workspace_document None doc
         /\ collected_from Fixture.env (Fixture.idle Fixture.world0) doc s0
         /\ json_dump Fixture.env 4 doc = Returns text
         /\ trace (snd (SaveWorkspace Fixture.env "test_state" (Fixture.idle Fixture.world0)))
            = trace s0 ++ [EvOfstreamOpen (GetWorkspacePath "test_state");
                           EvOfstreamWrite (GetWorkspacePath "test_state") text]).
Proof.
  split.
  - apply (proj2 (SaveWorkspace_document Fixture.env (Fixture.dragging Fixture.world0))
             "drag_test"
             (snd (SaveWorkspace Fixture.env "drag_test" (Fixture.dragging Fixture.world0)))).
    reflexivity.
  - apply (proj2 (SaveWorkspace_document Fixture.env (Fixture.idle Fixture.world0))
             "test_state"
             (snd (SaveWorkspace Fixture.env "test_state" (Fixture.idle Fixture.world0)))).
    reflexivity.
Defined.

(** The document saved during the drag of the tests. *)
Example SerializeCurrentState_example :
  fst (SerializeCurrentState Fixture.env (Fixture.dragging Fixture.world0))
  = Returns
      (json_object
         [("docking", json_object []);
          ("drag_state",
           json_object
             [("dock_location", json_string EmptyString);
              ("element_id", json_integer 1);
              ("element_type", json_string "window");
              ("is_docked", json_boolean false);
              ("position_x", json_float (Fixture.float_of_Z 100));
              ("position_y", json_float (Fixture.float_of_Z 100))]);
          ("timestamp", json_integer 1700000000);
          ("toolbars", json_object []);
          ("version", json_string "1.0");
          ("windows", json_object [])]).
Proof. reflexivity. Qed.

(** ** More about names and paths *)

Lemma string_length_append (s t : string) :
  String.length (s ++ t)%string = (String.length s + String.length t)%nat.
Proof. induction s as [| c s IH]; simpl; [reflexivity | now rewrite IH]. Qed.

Lemma string_append_cancel_r (s1 s2 t : string) :
  (s1 ++ t)%string = (s2 ++ t)%string -> s1 = s2.
Proof.
  revert s2. induction s1 as [| c1 s1 IH]; intros [| c2 s2] E; simpl in E.
  - reflexivity.
  - apply (f_equal String.length) in E. simpl in E. rewrite string_length_append in E. lia.
  - apply (f_equal String.length) in E. simpl in E. rewrite string_length_append in E. lia.
  - injection E as -> E. f_equal. now apply IH.
Qed.

(** The two cases of [operator/]. *)
Lemma path_append_cases (p q : string) :
  (exists rest, q = String "/" rest /\ path_append p q = q)
  \/ ((forall rest, q <> String "/" rest) /\ path_append p q = (p ++ "/" ++ q)%string).
Proof.
  destruct q as [| c rest].
  - right. split; [discriminate | reflexivity].
  - destruct c as [[] [] [] [] [] [] [] []];
      first [ left; eexists; split; reflexivity
            | right; split; [intros r H; discriminate | reflexivity] ].
Qed.

Lemma ValidateWorkspaceName_success_inv (name : string) :
  ValidateWorkspaceName name = Error_Success ->
  name <> EmptyString
  /\ forall c, In c (list_ascii_of_string name) -> in_name_alphabet c = true.
Proof.
  intros V. destruct name as [| c rest]; [discriminate|].
  split; [discriminate|]. unfold ValidateWorkspaceName in V. cbn [empty] in V.
  destruct (regex_match_valid_name (String c rest)) eqn:R; [|discriminate].
  rewrite regex_match_valid_name_all_chars in R by discriminate.
  intros a Ha. rewrite <- valid_name_char_alphabet.
  now apply (proj1 (all_chars_forall _ _) R).
Qed.

(** X1.  [ValidateWorkspaceName] accepts exactly the non-empty names made of
    letters, digits, underscores and hyphens. *)
Theorem ValidateWorkspaceName_accepts_iff (name : string) :
  ValidateWorkspaceName name = Error_Success
  <-> name <> EmptyString
      /\ forall c, In c (list_ascii_of_string name) -> in_name_alphabet c = true.
Proof.
  split.
  - apply ValidateWorkspaceName_success_inv.
  - intros (N & A). apply ValidateWorkspaceName_valid; [exact N|].
    intros c Hc. rewrite valid_name_char_alphabet. now apply A.
Qed.

(** X2.  A name that passes validation names a file directly inside the
    workspace directory: its path is "workspaces/", the name, ".json". *)
Theorem validated_name_stays_in_directory (name : string) :
  ValidateWorkspaceName name = Error_Success ->
  GetWorkspacePath name = ("workspaces/" ++ name ++ ".json")%string
  /\ forall c, In c (list_ascii_of_string name) -> c <> "/"%char /\ c <> "."%char.
Proof.
  intros V. split.
  - destruct name as [| c rest]; [discriminate|].
    destruct c as [[] [] [] [] [] [] [] []]; try reflexivity.
    cbn in V. discriminate.
  - apply ValidateWorkspaceName_success_inv in V. destruct V as (_ & A).
    intros c Hc. specialize (A c Hc). split; intros ->; discriminate.
Qed.

Lemma validated_name_stays_in_directory_witness :
  ValidateWorkspaceName "ok_1-2" = Error_Success
  /\ GetWorkspacePath "ok_1-2" = "workspaces/ok_1-2.json".
Proof.
  split; [reflexivity|].
  apply (proj1 (validated_name_stays_in_directory "ok_1-2" eq_refl)).
Defined.

(** X3.  Different names give different paths, valid or not: no two
    workspace names share a file. *)
Theorem GetWorkspacePath_injective (name1 name2 : string) :
  GetWorkspacePath name1 = GetWorkspacePath name2 -> name1 = name2.
Proof.
  unfold GetWorkspacePath. intros E.
  destruct (path_append_cases "workspaces" (name1 ++ ".json")) as [(r1 & Q1 & P1) | (N1 & P1)];
    destruct (path_append_cases "workspaces" (name2 ++ ".json")) as [(r2 & Q2 & P2) | (N2 & P2)];
    rewrite P1, P2 in E.
  - now apply string_append_cancel_r with (t := ".json").
  - rewrite Q1 in E. discriminate.
  - rewrite Q2 in E. discriminate.
  - simpl in E. injection E as E. now apply string_append_cancel_r with (t := ".json").
Qed.

Lemma GetWorkspacePath_injective_witness :
  GetWorkspacePath "layout" = GetWorkspacePath "layout" /\ "layout" = "layout".
Proof.
  split; [reflexivity|].
  apply (GetWorkspacePath_injective "layout" "layout" eq_refl).
Defined.

(** A name that is an absolute path leaves the directory: [LoadWorkspace] and
    [DeleteWorkspace], which validate nothing, reach that file. *)
Example GetWorkspacePath_absolute :
  GetWorkspacePath "/etc/passwd" = "/etc/passwd.json"
  /\ GetWorkspacePath "../secret" = "workspaces/../secret.json".
Proof. split; reflexivity. Qed.

(** ** More about the drag lifecycle *)

Lemma SFcompare_refl (a : float) : a <> S754_nan -> SFcompare a a = Some Eq.
Proof.
  destruct a as [s | s | | s m e]; simpl; intros N; try congruence.
  - destruct s; reflexivity.
  - rewrite Z.compare_refl.
    assert (Pos.compare_cont Eq m m = Eq) as R by apply Pos.compare_cont_refl.
    destruct s; rewrite R; reflexivity.
Qed.

Lemma float_le_refl (a : float) : a <> S754_nan -> float_le a a = true.
Proof. intros N. unfold float_le, SFleb. now rewrite SFcompare_refl. Qed.

Section MoreDrag.

Context {W : Type} (env : Env W).

Lemma IsValidDropTarget_accepts (s : State W) (x y : float) (mw : MainWindow) (w' : W) :
  float_lt x float_zero = false ->
  float_lt y float_zero = false ->
  window_GetMainWindow env (world s) = (Returns (Some mw), w') ->
  float_le x (GetWidth mw) = true ->
  float_le y (GetHeight mw) = true ->
  fst (IsValidDropTarget env x y s) = Returns true.
Proof.
  intros X Y G Lx Ly. unfold IsValidDropTarget. unfold_monad.
  rewrite X, Y. simpl. rewrite G. simpl. now rewrite Lx, Ly.
Qed.

(** X4.  [IsValidDropTarget] answers true exactly when neither coordinate is
    negative, the window manager has a main window, and the coordinates are
    at most its width and height. *)
Theorem IsValidDropTarget_true_iff (s : State W) (x y : float) :
  fst (IsValidDropTarget env x y s) = Returns true
  <-> float_lt x float_zero = false
      /\ float_lt y float_zero = false
      /\ exists mw w',
          window_GetMainWindow env (world s) = (Returns (Some mw), w')
          /\ float_le x (GetWidth mw) = true
          /\ float_le y (GetHeight mw) = true.
Proof.
  unfold IsValidDropTarget. unfold_monad.
  destruct (float_lt x float_zero) eqn:X; simpl.
  { split; [discriminate | intros (F & _); discriminate]. }
  destruct (float_lt y float_zero) eqn:Y; simpl.
  { split; [discriminate | intros (_ & F & _); discriminate]. }
  destruct (window_GetMainWindow env (world s)) as [[[mw |] | what |] w'] eqn:G; simpl.
  - split.
    + intros E. injection E as E. apply andb_true_iff in E. eauto 10.
    + intros (_ & _ & mw' & w'' & G' & Lx & Ly). injection G' as <- <-.
      now rewrite Lx, Ly.
  - split; [discriminate | intros (_ & _ & mw' & w'' & G' & _); discriminate].
  - split; [discriminate | intros (_ & _ & mw' & w'' & G' & _); discriminate].
  - split; [discriminate | intros (_ & _ & mw' & w'' & G' & _); discriminate].
Qed.

(** X5.  The bounds are inclusive: the origin and the far corner of a main
    window (with dimensions that are numbers and not negative) are valid
    drop targets. *)
Theorem IsValidDropTarget_corners (s : State W) (mw : MainWindow) (w' : W) :
  window_GetMainWindow env (world s) = (Returns (Some mw), w') ->
  float_le float_zero (GetWidth mw) = true ->
  float_le float_zero (GetHeight mw) = true ->
  fst (IsValidDropTarget env float_zero float_zero s) = Returns true
  /\ fst (IsValidDropTarget env (GetWidth mw) (GetHeight mw) s) = Returns true.
Proof.
  intros G Pw Ph.
  assert (forall a, float_le float_zero a = true ->
                    float_lt a float_zero = false /\ float_le a a = true) as Z.
  { intros a P. split.
    - destruct (float_lt a float_zero) eqn:L; [|reflexivity].
      apply float_lt_not_le in L. congruence.
    - apply float_le_refl. intros ->. discriminate. }
  destruct (Z _ Pw) as (Nw & Rw). destruct (Z _ Ph) as (Nh & Rh).
  split; eapply IsValidDropTarget_accepts; eauto.
Qed.

End MoreDrag.

Lemma IsValidDropTarget_corners_witness :
  fst (IsValidDropTarget Fixture.env float_zero float_zero (Fixture.idle Fixture.world0))
  = Returns true
  /\ fst (IsValidDropTarget Fixture.env (Fixture.float_of_Z 800) (Fixture.float_of_Z 600)
            (Fixture.idle Fixture.world0)) = Returns true.
Proof.
  apply (IsValidDropTarget_corners Fixture.env (Fixture.idle Fixture.world0)
           Fixture.window_800x600 Fixture.world0 eq_refl eq_refl eq_refl).
Defined.

Section AcceptedDrops.

Context {W : Type} (env : Env W).

(** Where an accepted drop stands: the rest of [EndDrag] is its last three
    steps, run under the handler, with the members as they were. *)
Lemma EndDrag_accepted (s s2 : State W) (dragged target : DraggableElement.t) :
  current_drag_ s = Some dragged ->
  drop_accepted env s dragged target s2 ->
  EndDrag env target s = try_catch (EndDrag_finish env dragged target) EndDrag_handler s2
  /\ current_drag_ s2 = Some dragged
  /\ drag_drop_callback_ s2 = drag_drop_callback_ s.
Proof.
  intros D (s1 & V & K).
  destruct (IsValidDropTarget_frame env s s1 _ _ _ V) as (D1 & C1 & _).
  split.
  - unfold EndDrag, EndDrag_body.
    unfold bind at 1, get_current_drag. rewrite D.
    unfold try_catch, bind at 1. rewrite V.
    change (negb true) with false. cbv iota.
    destruct K as [(N & ->) | (N & r & E & S)]; rewrite N.
    + reflexivity.
    + unfold bind at 1. rewrite E, S. reflexivity.
  - destruct K as [(_ & ->) | (_ & r & E & _)].
    + split; congruence.
    + unfold call in E. destruct (docking_DockElement env _ _ (world s1)).
      inversion E; subst; simpl. split; congruence.
Qed.

(** Past the observer, what is left is the position update and the
    clean-up. *)
Lemma EndDrag_finish_after_observer (s2 s3 : State W) (dragged target : DraggableElement.t) :
  observer_returned s2 dragged target s3 ->
  EndDrag_finish env dragged target s2
  = bind (if String.eqb (DraggableElement.type dragged) "window" then
            call (EvUpdateWindowPosition (DraggableElement.id dragged)
                    (DraggableElement.x target) (DraggableElement.y target))
                 (window_UpdateWindowPosition env (DraggableElement.id dragged)
                    (DraggableElement.x target) (DraggableElement.y target))
          else if String.eqb (DraggableElement.type dragged) "toolbar" then
            call (EvUpdateToolbarPosition (DraggableElement.id dragged)
                    (DraggableElement.x target) (DraggableElement.y target))
                 (toolbar_UpdateToolbarPosition env (DraggableElement.id dragged)
                    (DraggableElement.x target) (DraggableElement.y target))
          else ret tt)
         (fun _ => bind delete_current_drag (fun _ => ret Error_Success)) s3
  /\ current_drag_ s3 = current_drag_ s2
  /\ drag_drop_callback_ s3 = drag_drop_callback_ s2.
Proof.
  unfold observer_returned, EndDrag_finish. intros O.
  unfold bind at 1, get_callback.
  destruct (drag_drop_callback_ s2) as [f |] eqn:C.
  - unfold bind at 1. rewrite O. split; [reflexivity|].
    unfold call in O. destruct (f dragged target (world s2)).
    inversion O; subst; simpl. auto.
  - subst s3. split; [reflexivity | auto].
Qed.

(** X6.  An accepted drop of a "window" calls [UpdateWindowPosition], and of
    a "toolbar" [UpdateToolbarPosition], with the id of the dragged element
    and the coordinates of the target, after the observer, as the last call;
    [EndDrag] then succeeds and the drag is over. *)
Theorem EndDrag_updates_position (s s2 s3 : State W) (dragged target : DraggableElement.t) :
  current_drag_ s = Some dragged ->
  drop_accepted env s dragged target s2 ->
  observer_returned s2 dragged target s3 ->
  (DraggableElement.type dragged = "window" ->
   forall w4,
     window_UpdateWindowPosition env (DraggableElement.id dragged)
       (DraggableElement.x target) (DraggableElement.y target) (world s3) = (Returns tt, w4) ->
     EndDrag env target s =
     (Returns Error_Success,
      mkState None (drag_drop_callback_ s) w4
        (trace s3 ++ [EvUpdateWindowPosition (DraggableElement.id dragged)
                        (DraggableElement.x target) (DraggableElement.y target)])))
  /\ (DraggableElement.type dragged = "toolbar" ->
      forall w4,
        toolbar_UpdateToolbarPosition env (DraggableElement.id dragged)
          (DraggableElement.x target) (DraggableElement.y target) (world s3) = (Returns tt, w4) ->
        EndDrag env target s =
        (Returns Error_Success,
         mkState None (drag_drop_callback_ s) w4
           (trace s3 ++ [EvUpdateToolbarPosition (DraggableElement.id dragged)
                           (DraggableElement.x target) (DraggableElement.y target)]))).
Proof.
  intros D A O.
  destruct (EndDrag_accepted s s2 dragged target D A) as (R & D2 & C2).
  destruct (EndDrag_finish_after_observer s2 s3 dragged target O) as (F & D3 & C3).
  rewrite R. unfold try_catch. rewrite F. unfold delete_current_drag. unfold_monad.
  split; intros T w4 U; rewrite T; simpl; rewrite U; simpl_state; congruence.
Qed.

(** X7.  An accepted drop of any other kind of element ("panel", say) makes
    no position update and still succeeds, the drag being over. *)
Theorem EndDrag_unknown_kind (s s2 s3 : State W) (dragged target : DraggableElement.t) :
  current_drag_ s = Some dragged ->
  drop_accepted env s dragged target s2 ->
  observer_returned s2 dragged target s3 ->
  DraggableElement.type dragged <> "window" ->
  DraggableElement.type dragged <> "toolbar" ->
  EndDrag env target s =
  (Returns Error_Success, mkState None (drag_drop_callback_ s) (world s3) (trace s3)).
Proof.
  intros D A O Nw Nt.
  destruct (EndDrag_accepted s s2 dragged target D A) as (R & D2 & C2).
  destruct (EndDrag_finish_after_observer s2 s3 dragged target O) as (F & D3 & C3).
  rewrite R. unfold try_catch. rewrite F. unfold delete_current_drag. unfold_monad.
  apply String.eqb_neq in Nw, Nt. rewrite Nw, Nt. simpl_state. congruence.
Qed.

(** X8.  If the window manager throws a [std::exception] from the position
    update, [EndDrag] returns "Failed to complete drag operation: " and the
    text, and the drag is over; the observer, called before the update, has
    been notified of a drop that did not take place. *)
Theorem EndDrag_update_failure (s s2 s3 : State W) (dragged target : DraggableElement.t)
        (what : string) (w4 : W) :
  current_drag_ s = Some dragged ->
  drop_accepted env s dragged target s2 ->
  observer_returned s2 dragged target s3 ->
  DraggableElement.type dragged = "window" ->
  window_UpdateWindowPosition env (DraggableElement.id dragged)
    (DraggableElement.x target) (DraggableElement.y target) (world s3) = (ThrowsStd what, w4) ->
  EndDrag env target s =
  (Returns (Error_ ("Failed to complete drag operation: " ++ what)),
   mkState None (drag_drop_callback_ s) w4
     (trace s3 ++ [EvUpdateWindowPosition (DraggableElement.id dragged)
                     (DraggableElement.x target) (DraggableElement.y target)]))
  /\ (forall f, drag_drop_callback_ s = Some f ->
                trace s3 = trace s2 ++ [EvCallback dragged target]).
Proof.
  intros D A O T U.
  destruct (EndDrag_accepted s s2 dragged target D A) as (R & D2 & C2).
  destruct (EndDrag_finish_after_observer s2 s3 dragged target O) as (F & D3 & C3).
  split.
  - rewrite R. unfold try_catch. rewrite F.
    unfold EndDrag_handler, delete_current_drag. unfold_monad.
    rewrite T. simpl. rewrite U. simpl_state. congruence.
  - intros f Cf. unfold observer_returned in O. rewrite C2, Cf in O.
    unfold call in O. destruct (f dragged target (world s2)).
    inversion O; subst; reflexivity.
Qed.

(** X9.  When the target is docked and the docking manager returns a
    failure, [EndDrag] returns that failure as it is; the docking manager
    was asked with the id of the dragged element and the dock location of
    the target, the drag is over, and neither the observer nor a position
    update follows. *)
Theorem EndDrag_docking_failure (s s1 : State W) (dragged target : DraggableElement.t)
        (r : Error) (w2 : W) :
  current_drag_ s = Some dragged ->
  IsValidDropTarget env (DraggableElement.x target) (DraggableElement.y target) s
  = (Returns true, s1) ->
  DraggableElement.isDocked target = true ->
  docking_DockElement env (DraggableElement.id dragged) (DraggableElement.dockLocation target)
    (world s1) = (Returns r, w2) ->
  IsSuccess r = false ->
  EndDrag env target s =
  (Returns r,
   mkState None (drag_drop_callback_ s) w2
     (trace s1 ++ [EvDockElement (DraggableElement.id dragged)
                     (DraggableElement.dockLocation target)])).
Proof.
  intros D V N K F.
  destruct (IsValidDropTarget_frame env s s1 _ _ _ V) as (D1 & C1 & _).
  unfold EndDrag, EndDrag_body.
  unfold bind at 1, get_current_drag. rewrite D.
  unfold try_catch, bind at 1. rewrite V.
  change (negb true) with false. cbv iota. rewrite N.
  unfold delete_current_drag. unfold_monad. rewrite K, F.
  change (negb false) with true. simpl_state. congruence.
Qed.

(** X10.  [EndDrag] calls the docking manager only for a docked target, and
    the observer only when one is registered, and then once at most. *)
Theorem EndDrag_calls_only_when_asked (s : State W) (target : DraggableElement.t) :
  exists calls,
    trace (snd (EndDrag env target s)) = trace s ++ calls
    /\ (DraggableElement.isDocked target = false ->
        forallb (fun ev => negb (is_dock_event ev)) calls = true)
    /\ (drag_drop_callback_ s = None ->
        forallb (fun ev => negb (is_callback_event ev)) calls = true)
    /\ (List.length (filter is_callback_event calls) <= 1)%nat.
Proof.
  unfold_drag.
  repeat (break_match; simpl_state);
    rewrite <- ?app_assoc;
    first [ exists []; rewrite app_nil_r; split; [reflexivity|]
          | eexists; split; [reflexivity|] ];
    simpl; repeat split; intros; try reflexivity; try discriminate; try lia.
Qed.

(** X11.  The handler of [EndDrag] catches [std::exception] only: when
    anything else is thrown by a manager or by the observer, it leaves
    [EndDrag] with the drag still in place, so that a later [BeginDrag] is
    refused. *)
Theorem EndDrag_foreign_exception_keeps_drag (s s' : State W)
        (dragged target element : DraggableElement.t) :
  current_drag_ s = Some dragged ->
  EndDrag env target s = (ThrowsOther, s') ->
  current_drag_ s' = Some dragged
  /\ BeginDrag env element s' =
     (Returns (Error_ "A drag operation is already in progress"), s').
Proof.
  intros D E.
  assert (current_drag_ s' = Some dragged) as D'.
  { revert E. unfold_drag. rewrite D.
    repeat (break_match; simpl_state); try discriminate;
      intros E; inversion E; subst; simpl_state; assumption. }
  split; [exact D'|]. now apply BeginDrag_while_dragging with (dragged := dragged).
Qed.

End AcceptedDrops.

Lemma EndDrag_updates_position_witness :
  EndDrag Fixture.env Fixture.target
    (Fixture.dragging_with Fixture.observer_ok Fixture.world0)
  = (Returns Error_Success,
     mkState None (Some Fixture.observer_ok) Fixture.world0
       [EvGetMainWindow; EvCallback Fixture.element Fixture.target;
        EvUpdateWindowPosition 1 (Fixture.float_of_Z 200) (Fixture.float_of_Z 150)])
  /\ EndDrag Fixture.env Fixture.target (Faulty.dragging Faulty.toolbar Fixture.world0)
     = (Returns Error_Success,
        mkState None None Fixture.world0
          [EvGetMainWindow;
           EvUpdateToolbarPosition 7 (Fixture.float_of_Z 200) (Fixture.float_of_Z 150)]).
Proof.
  split.
  - assert (drop_accepted Fixture.env
              (Fixture.dragging_with Fixture.observer_ok Fixture.world0)
              Fixture.element Fixture.target
              (mkState (Some Fixture.element) (Some Fixture.observer_ok) Fixture.world0
                 [EvGetMainWindow])) as A.
    { eexists. split; [reflexivity|]. left. split; reflexivity. }
    apply (proj1 (EndDrag_updates_position Fixture.env
                    (Fixture.dragging_with Fixture.observer_ok Fixture.world0)
                    (mkState (Some Fixture.element) (Some Fixture.observer_ok) Fixture.world0
                       [EvGetMainWindow])
                    (mkState (Some Fixture.element) (Some Fixture.observer_ok) Fixture.world0
                       [EvGetMainWindow; EvCallback Fixture.element Fixture.target])
                    Fixture.element Fixture.target eq_refl A eq_refl) eq_refl Fixture.world0).
    reflexivity.
  - assert (drop_accepted Fixture.env (Faulty.dragging Faulty.toolbar Fixture.world0)
              Faulty.toolbar Fixture.target
              (mkState (Some Faulty.toolbar) None Fixture.world0 [EvGetMainWindow])) as A.
    { eexists. split; [reflexivity|]. left. split; reflexivity. }
    apply (proj2 (EndDrag_updates_position Fixture.env
                    (Faulty.dragging Faulty.toolbar Fixture.world0)
                    (mkState (Some Faulty.toolbar) None Fixture.world0 [EvGetMainWindow])
                    (mkState (Some Faulty.toolbar) None Fixture.world0 [EvGetMainWindow])
                    Faulty.toolbar Fixture.target eq_refl A eq_refl) eq_refl Fixture.world0).
    reflexivity.
Defined.

Lemma EndDrag_unknown_kind_witness :
  EndDrag Fixture.env Fixture.target (Faulty.dragging Faulty.panel Fixture.world0)
  = (Returns Error_Success, mkState None None Fixture.world0 [EvGetMainWindow]).
Proof.
  assert (drop_accepted Fixture.env (Faulty.dragging Faulty.panel Fixture.world0)
            Faulty.panel Fixture.target
            (mkState (Some Faulty.panel) None Fixture.world0 [EvGetMainWindow])) as A.
  { eexists. split; [reflexivity|]. left. split; reflexivity. }
  apply (EndDrag_unknown_kind Fixture.env
           (Faulty.dragging Faulty.panel Fixture.world0)
           (mkState (Some Faulty.panel) None Fixture.world0 [EvGetMainWindow])
           (mkState (Some Faulty.panel) None Fixture.world0 [EvGetMainWindow])
           Faulty.panel Fixture.target eq_refl A eq_refl); discriminate.
Defined.

Lemma EndDrag_update_failure_witness :
  EndDrag (Faulty.env Faulty.UpdateThrows) Fixture.target
    (Fixture.dragging_with Fixture.observer_ok Fixture.world0)
  = (Returns (Error_ "Failed to complete drag operation: window not found"),
     mkState None (Some Fixture.observer_ok) Fixture.world0
       [EvGetMainWindow; EvCallback Fixture.element Fixture.target;
        EvUpdateWindowPosition 1 (Fixture.float_of_Z 200) (Fixture.float_of_Z 150)]).
Proof.
  assert (drop_accepted (Faulty.env Faulty.UpdateThrows)
            (Fixture.dragging_with Fixture.observer_ok Fixture.world0)
            Fixture.element Fixture.target
            (mkState (Some Fixture.element) (Some Fixture.observer_ok) Fixture.world0
               [EvGetMainWindow])) as A.
  { eexists. split; [reflexivity|]. left. split; reflexivity. }
  apply (proj1 (EndDrag_update_failure (Faulty.env Faulty.UpdateThrows)
                  (Fixture.dragging_with Fixture.observer_ok Fixture.world0)
                  (mkState (Some Fixture.element) (Some Fixture.observer_ok) Fixture.world0
                     [EvGetMainWindow])
                  (mkState (Some Fixture.element) (Some Fixture.observer_ok) Fixture.world0
                     [EvGetMainWindow; EvCallback Fixture.element Fixture.target])
                  Fixture.element Fixture.target "window not found" Fixture.world0
                  eq_refl A eq_refl eq_refl eq_refl)).
Defined.

Lemma EndDrag_docking_failure_witness :
  EndDrag Fixture.env Fixture.target_docked (Fixture.dragging Fixture.world_docking_fails)
  = (Returns (Error_ "Unknown dock location"),
     mkState None None Fixture.world_docking_fails [EvGetMainWindow; EvDockElement 1 "right"]).
Proof.
  apply (EndDrag_docking_failure Fixture.env (Fixture.dragging Fixture.world_docking_fails)
           (mkState (Some Fixture.element) None Fixture.world_docking_fails [EvGetMainWindow])
           Fixture.element Fixture.target_docked (Error_ "Unknown dock location")
           Fixture.world_docking_fails eq_refl eq_refl eq_refl eq_refl eq_refl).
Defined.

Lemma EndDrag_foreign_exception_keeps_drag_witness :
  fst (EndDrag Fixture.env Fixture.target
         (Fixture.dragging_with Fixture.observer_throws_other Fixture.world0)) = ThrowsOther
  /\ current_drag_ (snd (EndDrag Fixture.env Fixture.target
                           (Fixture.dragging_with Fixture.observer_throws_other Fixture.world0)))
     = Some Fixture.element
  /\ fst (BeginDrag Fixture.env Faulty.toolbar
            (snd (EndDrag Fixture.env Fixture.target
                    (Fixture.dragging_with Fixture.observer_throws_other Fixture.world0))))
     = Returns (Error_ "A drag operation is already in progress").
Proof.
  split; [reflexivity|].
  pose proof (EndDrag_foreign_exception_keeps_drag Fixture.env
                (Fixture.dragging_with Fixture.observer_throws_other Fixture.world0)
                (snd (EndDrag Fixture.env Fixture.target
                        (Fixture.dragging_with Fixture.observer_throws_other Fixture.world0)))
                Fixture.element Fixture.target Faulty.toolbar eq_refl eq_refl) as (D & B).
  split; [exact D|]. now rewrite B.
Defined.

(** *** How the operations follow one another *)

Section MoreLifecycle.

Context {W : Type} (env : Env W).

(** X12.  After [BeginDrag] of an element and [UpdateDragPosition] to (x, y),
    the dragged element is the element begun with, at (x, y): its id, type,
    size and docking fields are those it had. *)
Theorem BeginDrag_then_UpdateDragPosition (s : State W) (element : DraggableElement.t)
        (x y : float) (w' : W) :
  current_drag_ s = None ->
  LOG_INFO env (DraggableElement.type element) (DraggableElement.id element) (world s)
  = (Returns tt, w') ->
  let s1 := snd (BeginDrag env element s) in
  let s2 := snd (UpdateDragPosition x y s1) in
  fst (BeginDrag env element s) = Returns Error_Success
  /\ GetDraggedElement s1 = (Returns (Some element), s1)
  /\ fst (UpdateDragPosition x y s1) = Returns Error_Success
  /\ GetDraggedElement s2
     = (Returns (Some (DraggableElement.Build
                         (DraggableElement.id element) (DraggableElement.type element)
                         x y
                         (DraggableElement.width element) (DraggableElement.height element)
                         (DraggableElement.isDocked element)
                         (DraggableElement.dockLocation element))), s2)
  /\ world s2 = w'.
Proof.
  intros D L s1 s2. subst s1 s2.
  rewrite (BeginDrag_while_idle env s element w' D L).
  unfold UpdateDragPosition, GetDraggedElement. unfold_monad. simpl. auto.
Qed.

(** X13.  Of two position updates in a row only the second counts. *)
Theorem UpdateDragPosition_last_wins (s : State W) (x1 y1 x2 y2 : float) :
  UpdateDragPosition x2 y2 (snd (UpdateDragPosition x1 y1 s)) = UpdateDragPosition x2 y2 s.
Proof.
  unfold UpdateDragPosition. unfold_monad.
  destruct (current_drag_ s) as [d |] eqn:D; simpl_state.
  - reflexivity.
  - now rewrite D.
Qed.

(** X14.  A drag that ended, however [EndDrag] returned, can be followed by a
    new one: [BeginDrag] is accepted again. *)
Theorem EndDrag_then_BeginDrag (s s' : State W) (dragged target element : DraggableElement.t)
        (result : Error) (w' : W) :
  current_drag_ s = Some dragged ->
  EndDrag env target s = (Returns result, s') ->
  LOG_INFO env (DraggableElement.type element) (DraggableElement.id element) (world s')
  = (Returns tt, w') ->
  BeginDrag env element s' =
  (Returns Error_Success,
   mkState (Some element) (drag_drop_callback_ s') w'
     (trace s' ++ [EvLogInfo (DraggableElement.type element) (DraggableElement.id element)])).
Proof.
  intros D E L. apply BeginDrag_while_idle; [|exact L].
  now apply (EndDrag_returns_cleared env s s' target dragged result).
Qed.

(** X15.  A coordinator as the constructor leaves it is idle and has no
    observer: there is no dragged element, and [UpdateDragPosition] and
    [EndDrag] are refused. *)
Theorem WorkspaceManager_new_is_idle (create_directories : string -> extern W bool)
        (w w' : W) (s0 : State W) :
  WorkspaceManager_new create_directories w = (Returns s0, w') ->
  GetDraggedElement s0 = (Returns None, s0)
  /\ drag_drop_callback_ s0 = None
  /\ world s0 = w'
  /\ (forall x y,
         UpdateDragPosition x y s0 = (Returns (Error_ "No drag operation in progress"), s0))
  /\ (forall target,
         EndDrag env target s0 = (Returns (Error_ "No drag operation in progress"), s0)).
Proof.
  unfold WorkspaceManager_new.
  destruct (create_directories "workspaces" w) as [[b | what |] w1]; try discriminate.
  intros E. inversion E; subst; clear E.
  split; [reflexivity|]. split; [reflexivity|]. split; [reflexivity|]. split.
  - intros x y. now apply UpdateDragPosition_while_idle.
  - intros target. now apply EndDrag_while_idle.
Qed.

End MoreLifecycle.

Lemma BeginDrag_then_UpdateDragPosition_witness :
  GetDraggedElement
    (snd (UpdateDragPosition (Fixture.float_of_Z 200) (Fixture.float_of_Z 150)
            (snd (BeginDrag Fixture.env Fixture.element (Fixture.idle Fixture.world0)))))
  = (Returns (Some (DraggableElement.Build 1 "window"
                      (Fixture.float_of_Z 200) (Fixture.float_of_Z 150)
                      (Fixture.float_of_Z 200) (Fixture.float_of_Z 150) false EmptyString)),
     snd (UpdateDragPosition (Fixture.float_of_Z 200) (Fixture.float_of_Z 150)
            (snd (BeginDrag Fixture.env Fixture.element (Fixture.idle Fixture.world0))))).
Proof.
  apply (proj1 (proj2 (proj2 (proj2
           (BeginDrag_then_UpdateDragPosition Fixture.env (Fixture.idle Fixture.world0)
              Fixture.element (Fixture.float_of_Z 200) (Fixture.float_of_Z 150)
              Fixture.world0 eq_refl eq_refl))))).
Defined.

Lemma EndDrag_then_BeginDrag_witness :
  fst (EndDrag Fixture.env Fixture.target_outside (Fixture.dragging Fixture.world0))
  = Returns (Error_ "Invalid drop target location")
  /\ fst (BeginDrag Fixture.env Faulty.toolbar
            (snd (EndDrag Fixture.env Fixture.target_outside (Fixture.dragging Fixture.world0))))
     = Returns Error_Success.
Proof.
  split; [reflexivity|].
  rewrite (EndDrag_then_BeginDrag Fixture.env (Fixture.dragging Fixture.world0)
             (snd (EndDrag Fixture.env Fixture.target_outside (Fixture.dragging Fixture.world0)))
             Fixture.element Fixture.target_outside Faulty.toolbar
             (Error_ "Invalid drop target location") Fixture.world0
             eq_refl eq_refl eq_refl).
  reflexivity.
Defined.

Lemma WorkspaceManager_new_is_idle_witness :
  let made := Fixture.mkWorld true [] (Some Fixture.window_800x600)
                Error_Success Fixture.all_succeed in
  WorkspaceManager_new Faulty.create_directories Fixture.world_no_directory
  = (Returns (mkState None None made []), made)
  /\ EndDrag Fixture.env Fixture.target (mkState None None made [])
     = (Returns (Error_ "No drag operation in progress"), mkState None None made []).
Proof.
  intros made. split; [reflexivity|].
  apply (proj2 (proj2 (proj2 (proj2
           (WorkspaceManager_new_is_idle Fixture.env Faulty.create_directories
              Fixture.world_no_directory made (mkState None None made []) eq_refl))))).
Defined.

(** ** What an operation leaves alone *)

Section Frames.

Context {W : Type}.

Lemma preserves_ret {A X} (member : State W -> X) (a : A) : preserves member (ret a).
Proof. intros s. reflexivity. Qed.

Lemma preserves_throw {A X} (member : State W -> X) (what : string) :
  preserves member (@throw W A what).
Proof. intros s. reflexivity. Qed.

Lemma preserves_lift {A X} (member : State W -> X) (o : outcome A) :
  preserves member (lift o).
Proof. intros s. reflexivity. Qed.

Lemma preserves_bind {A B X} (member : State W -> X) (m : M W A) (k : A -> M W B) :
  preserves member m -> (forall a, preserves member (k a)) -> preserves member (bind m k).
Proof.
  intros Hm Hk s. unfold bind. specialize (Hm s).
  destruct (m s) as [[a | what |] s1]; simpl in *; try exact Hm.
  rewrite <- Hm. apply Hk.
Qed.

Lemma preserves_try_catch {A X} (member : State W -> X) (m : M W A) (h : string -> M W A) :
  preserves member m -> (forall what, preserves member (h what)) ->
  preserves member (try_catch m h).
Proof.
  intros Hm Hh s. unfold try_catch. specialize (Hm s).
  destruct (m s) as [[a | what |] s1]; simpl in *; try exact Hm.
  rewrite <- Hm. apply Hh.
Qed.

Lemma preserves_call_drag {A} (ev : Event) (op : extern W A) :
  preserves current_drag_ (call ev op).
Proof. intros s. unfold call. now destruct (op (world s)). Qed.

Lemma preserves_call_callback {A} (ev : Event) (op : extern W A) :
  preserves drag_drop_callback_ (call ev op).
Proof. intros s. unfold call. now destruct (op (world s)). Qed.

Lemma preserves_set_current_drag (d : option DraggableElement.t) :
  preserves (@drag_drop_callback_ W) (set_current_drag d).
Proof. intros s. reflexivity. Qed.

Lemma preserves_get_current_drag {X} (member : State W -> X) :
  preserves member get_current_drag.
Proof. intros s. reflexivity. Qed.

Lemma preserves_get_callback {X} (member : State W -> X) :
  preserves member get_callback.
Proof. intros s. reflexivity. Qed.

Variable env : Env W.

(** X16.  The observer slot is written by [SetDragDropCallback] alone: no
    other operation changes it, however that operation ends. *)
Theorem observer_changed_by_SetDragDropCallback_only
        (element target : DraggableElement.t) (x y : float) (name : string) :
  preserves drag_drop_callback_ (BeginDrag env element)
  /\ preserves drag_drop_callback_ (@UpdateDragPosition W x y)
  /\ preserves drag_drop_callback_ (EndDrag env target)
  /\ preserves drag_drop_callback_ (IsValidDropTarget env x y)
  /\ preserves drag_drop_callback_ (SaveWorkspace env name)
  /\ preserves drag_drop_callback_ (LoadWorkspace env name)
  /\ preserves drag_drop_callback_ (DeleteWorkspace env name)
  /\ preserves drag_drop_callback_ (GetAvailableWorkspaces env).
Proof.
  unfold BeginDrag, UpdateDragPosition, EndDrag, EndDrag_body, EndDrag_finish,
    IsValidDropTarget, delete_current_drag, SaveWorkspace, LoadWorkspace, DeleteWorkspace,
    GetAvailableWorkspaces, DeserializeAndApplyState, SerializeCurrentState,
    json_at, json_get_string, json_assign, json_throw.
  cbv zeta.
  repeat split;
    repeat first
      [ apply preserves_ret | apply preserves_throw | apply preserves_lift
      | apply preserves_call_callback | apply preserves_set_current_drag
      | apply preserves_get_current_drag | apply preserves_get_callback
      | apply preserves_bind; [| intros ?]
      | apply preserves_try_catch; [| intros ?]
      | match goal with
        | |- preserves _ (match ?e with _ => _ end) => destruct e
        end ].
Qed.

(** X17.  Saving, loading, listing and deleting workspaces, checking a drop
    target and registering an observer do not touch the drag: a drag in
    progress goes on through them, and none of them starts one. *)
Theorem drag_untouched_outside_the_lifecycle
        (x y : float) (name : string) (callback : option (DragDropCallback W)) :
  preserves current_drag_ (SaveWorkspace env name)
  /\ preserves current_drag_ (LoadWorkspace env name)
  /\ preserves current_drag_ (DeleteWorkspace env name)
  /\ preserves current_drag_ (GetAvailableWorkspaces env)
  /\ preserves current_drag_ (IsValidDropTarget env x y)
  /\ preserves current_drag_ (SetDragDropCallback callback).
Proof.
  unfold IsValidDropTarget, SaveWorkspace, LoadWorkspace, DeleteWorkspace,
    GetAvailableWorkspaces, DeserializeAndApplyState, SerializeCurrentState,
    json_at, json_get_string, json_assign, json_throw.
  cbv zeta.
  repeat split;
    try (intros s; reflexivity);
    repeat first
      [ apply preserves_ret | apply preserves_throw | apply preserves_lift
      | apply preserves_call_drag
      | apply preserves_get_current_drag | apply preserves_get_callback
      | apply preserves_bind; [| intros ?]
      | apply preserves_try_catch; [| intros ?]
      | match goal with
        | |- preserves _ (match ?e with _ => _ end) => destruct e
        end ].
Qed.

End Frames.

(** ** More about saving, loading, listing and deleting *)

Lemma fold_left_json_stems (entries : list directory_entry) (acc : list string) :
  fold_left
    (fun workspaces entry =>
       if String.eqb (path_extension entry) ".json"
       then workspaces ++ [path_stem entry]
       else workspaces)
    entries acc
  = acc ++ map path_stem
             (filter (fun entry => String.eqb (path_extension entry) ".json") entries).
Proof.
  revert acc. induction entries as [| e entries IH]; intros acc; simpl.
  - now rewrite app_nil_r.
  - rewrite IH. destruct (String.eqb (path_extension e) ".json"); simpl.
    + now rewrite <- app_assoc.
    + reflexivity.
Qed.

Section MorePersistence.

Context {W : Type} (env : Env W).

(** X18.  When the directory can be read, [GetAvailableWorkspaces] returns
    the stems of the entries whose extension is ".json", in the order the
    directory gives them, and nothing for the other entries. *)
Theorem GetAvailableWorkspaces_lists_json_stems (s : State W)
        (entries : list directory_entry) (w' : W) :
  directory_iterator env "workspaces" (world s) = (Returns entries, w') ->
  GetAvailableWorkspaces env s =
  (Returns (map path_stem
              (filter (fun entry => String.eqb (path_extension entry) ".json") entries)),
   after_call s w' [EvDirectoryIterator "workspaces"]).
Proof.
  intros H. unfold GetAvailableWorkspaces. unfold_monad. rewrite H.
  now rewrite fold_left_json_stems.
Qed.

(** X19.  When the file cannot be opened for writing, [SaveWorkspace] fails
    with "Failed to open workspace file for writing": the managers have been
    asked for their state by then, and nothing is written. *)
Theorem SaveWorkspace_open_failure (name : string) (doc : json) (s s0 : State W) (w1 : W) :
  ValidateWorkspaceName name = Error_Success ->
  SerializeCurrentState env s = (Returns doc, s0) ->
  ofstream_open env (GetWorkspacePath name) (world s0) = (Returns false, w1) ->
  SaveWorkspace env name s =
  (Returns (Error_ "Failed to open workspace file for writing"),
   after_call s0 w1 [EvOfstreamOpen (GetWorkspacePath name)]).
Proof.
  intros V E O. unfold SaveWorkspace. rewrite V. simpl.
  unfold try_catch, bind at 1. rewrite E. unfold_monad. rewrite O. reflexivity.
Qed.

(** X20.  A [std::exception] thrown while the state is collected makes
    [SaveWorkspace] fail with "Failed to save workspace: " and its text,
    before any file is opened; one thrown by the dump of the document does
    the same after the file has been opened, so that the file is left
    without the document. *)
Theorem SaveWorkspace_exception (name : string) (s : State W) :
  ValidateWorkspaceName name = Error_Success ->
  (forall what w1,
      window_SerializeState env (world s) = (ThrowsStd what, w1) ->
      SaveWorkspace env name s =
      (Returns (Error_ ("Failed to save workspace: " ++ what)),
       after_call s w1 [EvSerializeState Windows]))
  /\ (forall doc s0 w1 what,
         SerializeCurrentState env s = (Returns doc, s0) ->
         ofstream_open env (GetWorkspacePath name) (world s0) = (Returns true, w1) ->
         json_dump env 4 doc = ThrowsStd what ->
         SaveWorkspace env name s =
         (Returns (Error_ ("Failed to save workspace: " ++ what)),
          after_call s0 w1 [EvOfstreamOpen (GetWorkspacePath name)])).
Proof.
  intros V. split.
  - intros what w1 E. unfold SaveWorkspace. rewrite V. simpl.
    unfold SerializeCurrentState. unfold_monad. rewrite E. reflexivity.
  - intros doc s0 w1 what E O D. unfold SaveWorkspace. rewrite V. simpl.
    unfold try_catch, bind at 1. rewrite E. unfold_monad. rewrite O. simpl.
    rewrite D. reflexivity.
Qed.

(** X21.  A file that opens but does not parse makes [LoadWorkspace] fail
    with "Failed to load workspace: " and the parser's text; no manager is
    called. *)
Theorem LoadWorkspace_parse_failure (name text what : string) (s : State W) (w' : W) :
  ifstream_open env (GetWorkspacePath name) (world s) = (Returns (Some text), w') ->
  json_parse env text = ThrowsStd what ->
  LoadWorkspace env name s =
  (Returns (Error_ ("Failed to load workspace: " ++ what)),
   after_call s w' [EvIfstreamOpen (GetWorkspacePath name)]).
Proof.
  intros O P. unfold LoadWorkspace. unfold_monad. rewrite O. simpl. rewrite P. reflexivity.
Qed.

(** X22.  Loading is not all or nothing.  A document of version "1.0"
    without [windows] fails with the library's "key not found" text before
    any manager is called; one with [windows] but without [docking] fails in
    the same way after the window manager has restored its part. *)
Theorem LoadWorkspace_missing_subdocument (name text : string) (doc : json)
        (s : State W) (w0 : W) :
  ifstream_open env (GetWorkspacePath name) (world s) = (Returns (Some text), w0) ->
  json_parse env text = Returns doc ->
  json_member doc "version" = Some (json_string "1.0") ->
  (json_member doc "windows" = None ->
   LoadWorkspace env name s =
   (Returns (Error_ ("Failed to apply workspace state: "
                       ++ json_what env (out_of_range_403 "windows"))),
    after_call s w0 [EvIfstreamOpen (GetWorkspacePath name)]))
  /\ (forall windows r1 w1,
         json_member doc "windows" = Some windows ->
         json_member doc "docking" = None ->
         window_DeserializeState env windows w0 = (Returns r1, w1) ->
         IsSuccess r1 = true ->
         LoadWorkspace env name s =
         (Returns (Error_ ("Failed to apply workspace state: "
                             ++ json_what env (out_of_range_403 "docking"))),
          after_call s w1 [EvIfstreamOpen (GetWorkspacePath name);
                           EvDeserializeState Windows windows])).
Proof.
  intros O P V. rewrite (LoadWorkspace_applies env name text doc s w0 O P).
  destruct doc; try discriminate. simpl in V. unfold after_call. split.
  - intros Hw. simpl in Hw. unfold_io. rewrite V. simpl. rewrite Hw. reflexivity.
  - intros windows r1 w1 Hw Hd E1 S1. simpl in Hw, Hd.
    unfold_io. rewrite V. simpl. rewrite Hw. simpl_state. rewrite E1, S1. simpl.
    rewrite Hd. simpl. now rewrite <- app_assoc.
Qed.

(** X23.  A failure a manager returns from [DeserializeState] is passed on
    as it is, but a [std::exception] it throws is caught and reported as
    "Failed to apply workspace state: " with the exception's text. *)
Theorem LoadWorkspace_manager_exception (name text what : string) (doc windows : json)
        (s : State W) (w0 w1 : W) :
  ifstream_open env (GetWorkspacePath name) (world s) = (Returns (Some text), w0) ->
  json_parse env text = Returns doc ->
  json_member doc "version" = Some (json_string "1.0") ->
  json_member doc "windows" = Some windows ->
  window_DeserializeState env windows w0 = (ThrowsStd what, w1) ->
  LoadWorkspace env name s =
  (Returns (Error_ ("Failed to apply workspace state: " ++ what)),
   after_call s w1 [EvIfstreamOpen (GetWorkspacePath name);
                    EvDeserializeState Windows windows]).
Proof.
  intros O P V Hw E1. rewrite (LoadWorkspace_applies env name text doc s w0 O P).
  destruct doc; try discriminate. simpl in V, Hw. unfold after_call.
  unfold_io. rewrite V. simpl. rewrite Hw. simpl_state. rewrite E1. simpl.
  now rewrite <- app_assoc.
Qed.

(** X24.  A [std::exception] from the filesystem, thrown by the existence
    check or by the removal, makes [DeleteWorkspace] fail with "Failed to
    delete workspace: " and its text. *)
Theorem DeleteWorkspace_exception (name what : string) (s : State W) :
  (forall w1,
      filesystem_exists env (GetWorkspacePath name) (world s) = (ThrowsStd what, w1) ->
      DeleteWorkspace env name s =
      (Returns (Error_ ("Failed to delete workspace: " ++ what)),
       after_call s w1 [EvExists (GetWorkspacePath name)]))
  /\ (forall w1 w2,
         filesystem_exists env (GetWorkspacePath name) (world s) = (Returns true, w1) ->
         filesystem_remove env (GetWorkspacePath name) w1 = (ThrowsStd what, w2) ->
         DeleteWorkspace env name s =
         (Returns (Error_ ("Failed to delete workspace: " ++ what)),
          after_call s w2 [EvExists (GetWorkspacePath name);
                           EvRemove (GetWorkspacePath name)])).
Proof.
  split.
  - intros w1 X. unfold_io. now rewrite X.
  - intros w1 w2 X R. unfold_io. rewrite X. simpl. rewrite R. simpl.
    unfold after_call. now rewrite <- app_assoc.
Qed.

(** X25.  What is saved can be loaded.  If the managers and the clock answer,
    [SerializeCurrentState] builds a document; and when the text of the file
    parses to that document, [LoadWorkspace] passes the version check and
    hands each manager the very sub-document that manager gave, whether or
    not a drag was active at the time of saving. *)
Theorem save_then_load (s t : State W) (name text : string)
        (windows docking toolbars : json) (now : Z) (w1 w2 w3 w4 v0 : W) :
  window_SerializeState env (world s) = (Returns windows, w1) ->
  docking_SerializeState env w1 = (Returns docking, w2) ->
  toolbar_SerializeState env w2 = (Returns toolbars, w3) ->
  clock_now env w3 = (Returns now, w4) ->
  exists doc,
    fst (SerializeCurrentState env s) = Returns doc
    /\ (ifstream_open env (GetWorkspacePath name) (world t) = (Returns (Some text), v0) ->
        json_parse env text = Returns doc ->
        forall r1 v1 r2 v2 r3 v3,
          window_DeserializeState env windows v0 = (Returns r1, v1) ->
          IsSuccess r1 = true ->
          docking_DeserializeState env docking v1 = (Returns r2, v2) ->
          IsSuccess r2 = true ->
          toolbar_DeserializeState env toolbars v2 = (Returns r3, v3) ->
          LoadWorkspace env name t =
          (Returns r3,
           after_call t v3 [EvIfstreamOpen (GetWorkspacePath name);
                            EvDeserializeState Windows windows;
                            EvDeserializeState Docking docking;
                            EvDeserializeState Toolbars toolbars])).
Proof.
  intros E1 E2 E3 E4.
  assert (exists doc,
             fst (SerializeCurrentState env s) = Returns doc
             /\ json_member doc "version" = Some (json_string "1.0")
             /\ json_member doc "windows" = Some windows
             /\ json_member doc "docking" = Some docking
             /\ json_member doc "toolbars" = Some toolbars) as (doc & S & V & Hw & Hd & Ht).
  { unfold_io. rewrite E1. simpl_state. simpl.
    rewrite E2. simpl_state. simpl. rewrite E3. simpl_state. simpl.
    destruct (current_drag_ s); simpl; rewrite E4; simpl;
      eexists; repeat split; reflexivity. }
  exists doc. split; [exact S|].
  intros O P r1 v1 r2 v2 r3 v3 D1 S1 D2 S2 D3.
  rewrite (LoadWorkspace_applies env name text doc t v0 O P).
  destruct (DeserializeAndApplyState_dispatch env doc windows docking toolbars
              (after_call t v0 [EvIfstreamOpen (GetWorkspacePath name)]) V Hw Hd Ht)
    as (_ & _ & C).
  rewrite (C r1 v1 r2 v2 r3 v3 D1 S1 D2 S2 D3).
  unfold after_call. simpl_state. now rewrite <- app_assoc.
Qed.

End MorePersistence.

(** *** The same on the fixtures *)

Lemma GetAvailableWorkspaces_lists_json_stems_witness :
  GetAvailableWorkspaces (Faulty.env Faulty.NoFault) (Fixture.idle Fixture.world0)
  = (Returns ["layout"; "backup"],
     after_call (Fixture.idle Fixture.world0) Fixture.world0
       [EvDirectoryIterator "workspaces"]).
Proof.
  apply (GetAvailableWorkspaces_lists_json_stems (Faulty.env Faulty.NoFault)
           (Fixture.idle Fixture.world0) _ Fixture.world0 eq_refl).
Defined.

Lemma SaveWorkspace_open_failure_witness :
  SaveWorkspace Fixture.env "workspace1" (Fixture.idle Fixture.world_no_directory)
  = (Returns (Error_ "Failed to open workspace file for writing"),
     mkState None None Fixture.world_no_directory
       [EvSerializeState Windows; EvSerializeState Docking; EvSerializeState Toolbars;
        EvClockNow; EvOfstreamOpen "workspaces/workspace1.json"]).
Proof.
  apply (SaveWorkspace_open_failure Fixture.env "workspace1"
           (json_object [("docking", json_object []); ("timestamp", json_integer 1700000000);
                         ("toolbars", json_object []); ("version", json_string "1.0");
                         ("windows", json_object [])])
           (Fixture.idle Fixture.world_no_directory)
           (mkState None None Fixture.world_no_directory
              [EvSerializeState Windows; EvSerializeState Docking; EvSerializeState Toolbars;
               EvClockNow])
           Fixture.world_no_directory eq_refl eq_refl eq_refl).
Defined.

Lemma SaveWorkspace_exception_witness :
  SaveWorkspace (Faulty.env Faulty.SerializeThrows) "layout" (Fixture.idle Fixture.world0)
  = (Returns (Error_ "Failed to save workspace: window manager not initialised"),
     after_call (Fixture.idle Fixture.world0) Fixture.world0 [EvSerializeState Windows])
  /\ SaveWorkspace (Faulty.env Faulty.DumpThrows) "layout" (Fixture.idle Fixture.world0)
     = (Returns (Error_ "Failed to save workspace: [json.exception.type_error.316] invalid UTF-8 byte"),
        mkState None None Fixture.world0
          [EvSerializeState Windows; EvSerializeState Docking; EvSerializeState Toolbars;
           EvClockNow; EvOfstreamOpen "workspaces/layout.json"]).
Proof.
  split.
  - apply (proj1 (SaveWorkspace_exception (Faulty.env Faulty.SerializeThrows) "layout"
                    (Fixture.idle Fixture.world0) eq_refl)
             "window manager not initialised" Fixture.world0).
    reflexivity.
  - apply (proj2 (SaveWorkspace_exception (Faulty.env Faulty.DumpThrows) "layout"
                    (Fixture.idle Fixture.world0) eq_refl)
             (json_object [("docking", json_object []); ("timestamp", json_integer 1700000000);
                           ("toolbars", json_object []); ("version", json_string "1.0");
                           ("windows", json_object [])])
             (mkState None None Fixture.world0
                [EvSerializeState Windows; EvSerializeState Docking; EvSerializeState Toolbars;
                 EvClockNow])
             Fixture.world0 "[json.exception.type_error.316] invalid UTF-8 byte");
      reflexivity.
Defined.

Lemma LoadWorkspace_parse_failure_witness :
  LoadWorkspace (Faulty.env Faulty.NoFault) "corrupted" (Fixture.idle Faulty.world_files)
  = (Returns (Error_ "Failed to load workspace: [json.exception.parse_error.101] parse error"),
     after_call (Fixture.idle Faulty.world_files) Faulty.world_files
       [EvIfstreamOpen "workspaces/corrupted.json"]).
Proof.
  apply (LoadWorkspace_parse_failure (Faulty.env Faulty.NoFault) "corrupted"
           "{ invalid json content" "[json.exception.parse_error.101] parse error"
           (Fixture.idle Faulty.world_files) Faulty.world_files eq_refl eq_refl).
Defined.

Lemma LoadWorkspace_missing_subdocument_witness :
  LoadWorkspace (Faulty.env Faulty.NoFault) "bare" (Fixture.idle Faulty.world_files)
  = (Returns (Error_ "Failed to apply workspace state: [json.exception.out_of_range.403] key 'windows' not found"),
     after_call (Fixture.idle Faulty.world_files) Faulty.world_files
       [EvIfstreamOpen "workspaces/bare.json"])
  /\ LoadWorkspace (Faulty.env Faulty.NoFault) "partial" (Fixture.idle Faulty.world_files)
     = (Returns (Error_ "Failed to apply workspace state: [json.exception.out_of_range.403] key 'docking' not found"),
        after_call (Fixture.idle Faulty.world_files) Faulty.world_files
          [EvIfstreamOpen "workspaces/partial.json";
           EvDeserializeState Windows (json_object [])]).
Proof.
  split.
  - apply (proj1 (LoadWorkspace_missing_subdocument (Faulty.env Faulty.NoFault) "bare"
                    "no-windows" _ (Fixture.idle Faulty.world_files) Faulty.world_files
                    eq_refl eq_refl eq_refl)).
    reflexivity.
  - apply (proj2 (LoadWorkspace_missing_subdocument (Faulty.env Faulty.NoFault) "partial"
                    "no-docking" _ (Fixture.idle Faulty.world_files) Faulty.world_files
                    eq_refl eq_refl eq_refl)
             (json_object []) Error_Success Faulty.world_files);
      reflexivity.
Defined.

Lemma LoadWorkspace_manager_exception_witness :
  LoadWorkspace (Faulty.env Faulty.DeserializeThrows) "good" (Fixture.idle Faulty.world_files)
  = (Returns (Error_ "Failed to apply workspace state: bad window state"),
     after_call (Fixture.idle Faulty.world_files) Faulty.world_files
       [EvIfstreamOpen "workspaces/good.json"; EvDeserializeState Windows (json_object [])]).
Proof.
  apply (LoadWorkspace_manager_exception (Faulty.env Faulty.DeserializeThrows) "good"
           "version-1.0" "bad window state" _ (json_object [])
           (Fixture.idle Faulty.world_files) Faulty.world_files Faulty.world_files
           eq_refl eq_refl eq_refl eq_refl eq_refl).
Defined.

Lemma DeleteWorkspace_exception_witness :
  DeleteWorkspace (Faulty.env Faulty.ExistsThrows) "good" (Fixture.idle Faulty.world_files)
  = (Returns (Error_ "Failed to delete workspace: filesystem error: status: Permission denied"),
     after_call (Fixture.idle Faulty.world_files) Faulty.world_files
       [EvExists "workspaces/good.json"])
  /\ DeleteWorkspace (Faulty.env Faulty.RemoveThrows) "good" (Fixture.idle Faulty.world_files)
     = (Returns (Error_ "Failed to delete workspace: filesystem error: cannot remove: Permission denied"),
        after_call (Fixture.idle Faulty.world_files) Faulty.world_files
          [EvExists "workspaces/good.json"; EvRemove "workspaces/good.json"]).
Proof.
  split.
  - apply (proj1 (DeleteWorkspace_exception (Faulty.env Faulty.ExistsThrows) "good"
                    "filesystem error: status: Permission denied"
                    (Fixture.idle Faulty.world_files)) Faulty.world_files).
    reflexivity.
  - apply (proj2 (DeleteWorkspace_exception (Faulty.env Faulty.RemoveThrows) "good"
                    "filesystem error: cannot remove: Permission denied"
                    (Fixture.idle Faulty.world_files)) Faulty.world_files Faulty.world_files);
      reflexivity.
Defined.

Lemma save_then_load_witness :
  LoadWorkspace (Faulty.env Faulty.NoFault) "saved" (Fixture.idle Faulty.world_files)
  = (Returns Error_Success,
     after_call (Fixture.idle Faulty.world_files) Faulty.world_files
       [EvIfstreamOpen "workspaces/saved.json";
        EvDeserializeState Windows (json_object []);
        EvDeserializeState Docking (json_object []);
        EvDeserializeState Toolbars (json_object [])]).
Proof.
  destruct (save_then_load (Faulty.env Faulty.NoFault)
              (Fixture.idle Fixture.world0) (Fixture.idle Faulty.world_files)
              "saved" "saved" (json_object []) (json_object []) (json_object [])
              1700000000%Z Fixture.world0 Fixture.world0 Fixture.world0 Fixture.world0
              Faulty.world_files eq_refl eq_refl eq_refl eq_refl) as (doc & S & L).
  vm_compute in S. injection S as <-.
  apply (L eq_refl eq_refl Error_Success Faulty.world_files Error_Success Faulty.world_files
           Error_Success Faulty.world_files);
    reflexivity.
Defined.

Lemma ValidateWorkspaceName_accepts_iff_witness :
  ("test_workspace" <> EmptyString
   /\ forall c, In c (list_ascii_of_string "test_workspace") -> in_name_alphabet c = true)
  /\ ValidateWorkspaceName "test_workspace" = Error_Success.
Proof.
  assert ("test_workspace" <> EmptyString
          /\ forall c, In c (list_ascii_of_string "test_workspace") -> in_name_alphabet c = true)
    as H.
  { split; [discriminate|]. intros c Hc. simpl in Hc.
    repeat (destruct Hc as [<- | Hc]; [reflexivity|]). destruct Hc. }
  split; [exact H|].
  apply (proj2 (ValidateWorkspaceName_accepts_iff "test_workspace") H).
Defined.

Lemma IsValidDropTarget_true_iff_witness :
  fst (IsValidDropTarget Fixture.env (Fixture.float_of_Z 200) (Fixture.float_of_Z 150)
         (Fixture.idle Fixture.world0)) = Returns true.
Proof.
  apply (proj2 (IsValidDropTarget_true_iff Fixture.env (Fixture.idle Fixture.world0)
                  (Fixture.float_of_Z 200) (Fixture.float_of_Z 150))).
  split; [reflexivity|]. split; [reflexivity|].
  exists Fixture.window_800x600, Fixture.world0.
  split; [reflexivity|]. split; reflexivity.
Defined.

(** [collected_from] is about the managers: where the window manager throws
    instead of answering, no document counts as collected. *)
Example collected_from_asks_the_managers (doc : json) (s0 : State Fixture.World) :
  ~ collected_from (Faulty.env Faulty.SerializeThrows) (Fixture.idle Fixture.world0) doc s0.
Proof.
  intros (windows & docking & toolbars & now & w1 & w2 & w3 & w4 & E & _).
  discriminate E.
Qed.
